(** * Authentication core: a shallow embedding of the Express/Mongoose
      controllers, the Passport strategies and the token issuer.

    Source files embedded here:
      - [src/controllers/authController.js], last revision in the file
        (lines 379-725): [googleCallback], [facebookCallback],
        [updateUserRole], [register], [resendVerification], [login],
        [verifyEmail];
      - [src/unnamed/part_000] (config/passport): the Google and Facebook
        verify callbacks and [generateToken];
      - [src/unnamed/part_001]: the user schema and the routes that flag
        admin intent before the OAuth callback.

    Asynchronous handlers are embedded in a state-and-exception monad over
    the user collection; an exception keeps the writes done before it, as
    the database does. *)

From Stdlib Require Import String Ascii List ZArith Bool Lia.
Import ListNotations.
Local Open Scope string_scope.

(* ================================================================== *)
(** ** Characters and strings *)

Module Chars.

Definition between (lo hi : nat) (c : ascii) : bool :=
  let n := nat_of_ascii c in (lo <=? n)%nat && (n <=? hi)%nat.

Definition is_upper : ascii -> bool := between 65 90.
Definition is_lower : ascii -> bool := between 97 122.
Definition is_digit : ascii -> bool := between 48 57.

(** The class [\w] of JavaScript regular expressions. *)
Definition is_word (c : ascii) : bool :=
  is_upper c || is_lower c || is_digit c || Ascii.eqb c "_"%char.

Definition lower_char (c : ascii) : ascii :=
  if is_upper c then ascii_of_nat (nat_of_ascii c + 32) else c.

(** [String.prototype.toLowerCase] on the ASCII range. *)
Fixpoint toLowerCase (s : string) : string :=
  match s with
  | EmptyString => EmptyString
  | String c r => String (lower_char c) (toLowerCase r)
  end.

End Chars.

(* ================================================================== *)
(** ** Regular expressions, matched by derivatives

    Only what the schema's [match] pattern needs: classes, concatenation,
    alternation and iteration, on a pattern anchored at both ends. *)

Module Regex.

Inductive re : Type :=
| Void
| Eps
| Class (p : ascii -> bool)
| Cat (a b : re)
| Alt (a b : re)
| Star (a : re).

Fixpoint nullable (r : re) : bool :=
  match r with
  | Void => false
  | Eps => true
  | Class _ => false
  | Cat a b => nullable a && nullable b
  | Alt a b => nullable a || nullable b
  | Star _ => true
  end.

Fixpoint deriv (c : ascii) (r : re) : re :=
  match r with
  | Void => Void
  | Eps => Void
  | Class p => if p c then Eps else Void
  | Cat a b =>
      if nullable a then Alt (Cat (deriv c a) b) (deriv c b)
      else Cat (deriv c a) b
  | Alt a b => Alt (deriv c a) (deriv c b)
  | Star a => Cat (deriv c a) (Star a)
  end.

(** [/^r$/.test(s)] *)
Fixpoint test (r : re) (s : string) : bool :=
  match s with
  | EmptyString => nullable r
  | String c rest => test (deriv c r) rest
  end.

Definition chr (c : ascii) : re := Class (Ascii.eqb c).
Definition opt (r : re) : re := Alt Eps r.
Definition plus (r : re) : re := Cat r (Star r).

End Regex.

(* ================================================================== *)
(** ** The user model (models/User) *)

Module UserModel.

Import Chars Regex.

Inductive Method := local | google | facebook.
Inductive Role := user | admin.

Definition Method_eqb (a b : Method) : bool :=
  match a, b with
  | local, local | google, google | facebook, facebook => true
  | _, _ => false
  end.

Definition Role_eqb (a b : Role) : bool :=
  match a, b with
  | user, user | admin, admin => true
  | _, _ => false
  end.

(** The strings of the schema's [enum: ['user', 'admin']]. *)
Definition role_string (r : Role) : string :=
  match r with user => "user" | admin => "admin" end.

Definition role_of_string (s : string) : option Role :=
  if String.eqb s "user" then Some user
  else if String.eqb s "admin" then Some admin
  else None.

(** [_id]: the driver hands out a new identifier for every new document. *)
Definition ObjectId := nat.

Definition Time := Z.

(** A credential at rest: what was handed to the model, or its bcrypt
    digest under a salt. *)
Inductive Secret :=
| Plaintext (p : string)
| Bcrypt (salt : nat) (p : string).

(** [bcrypt.hash(p, salt)] and [bcrypt.compare(p, digest)], symbolically. *)
Definition bcrypt_hash (salt : nat) (p : string) : Secret := Bcrypt salt p.

Definition bcrypt_compare (entered : string) (stored : Secret) : bool :=
  match stored with
  | Bcrypt _ p => String.eqb entered p
  | Plaintext _ => false
  end.

(** The stored form of a one-time code: its hash, never the code. *)
Inductive OtpDigest := OtpHash (code : string).

(** The sub-documents [google: {id, email}] and [facebook: {id, email}]. *)
Record ProviderLink := mkLink { link_id : string; link_email : string }.

(** The documents of the collection.  [password], [isEmailVerified],
    [otpSecret] and [otpExpires] are the paths the last controller reads
    and writes; the schema under src/ is an earlier revision without
    them. *)
Record User := mkUser {
  _id : ObjectId;
  method : Method;
  name : string;
  email : string;
  role : Role;
  avatar : string;
  password : option Secret;
  isEmailVerified : bool;
  otpSecret : option OtpDigest;
  otpExpires : option Time;
  google_link : option ProviderLink;
  facebook_link : option ProviderLink
}.

(** [match: [/^\w+([.-]?\w+)*@\w+([.-]?\w+)*(\.\w{2,3})+$/, ...]] *)
Definition emailPattern : re :=
  let w := Class is_word in
  let sep := Alt (chr ".") (chr "-") in
  let words := Cat (plus w) (Star (Cat (opt sep) (plus w))) in
  let tld := Cat (chr ".") (Cat w (Cat w (opt w))) in
  Cat words (Cat (chr "@") (Cat words (plus tld))).

(** Mongoose's [match] validator lets the empty string through. *)
Definition email_ok (e : string) : bool :=
  match e with
  | EmptyString => true
  | _ => test emailPattern e
  end.

(** [required: true] on a String path rejects the empty string. *)
Definition name_ok (n : string) : bool :=
  negb (String.eqb n "").

(** A route parameter used as an identifier: a well-formed 24-digit
    hexadecimal string names an [ObjectId], anything else does not cast. *)
Inductive IdString :=
| HexId (o : ObjectId)
| NotAnId (raw : string).

(** Field updates on a document. *)
Definition set_role (r : Role) (u : User) : User :=
  mkUser (_id u) (method u) (name u) (email u) r (avatar u) (password u)
         (isEmailVerified u) (otpSecret u) (otpExpires u)
         (google_link u) (facebook_link u).

Definition set_password (p : option Secret) (u : User) : User :=
  mkUser (_id u) (method u) (name u) (email u) (role u) (avatar u) p
         (isEmailVerified u) (otpSecret u) (otpExpires u)
         (google_link u) (facebook_link u).

Definition set_isEmailVerified (b : bool) (u : User) : User :=
  mkUser (_id u) (method u) (name u) (email u) (role u) (avatar u)
         (password u) b (otpSecret u) (otpExpires u)
         (google_link u) (facebook_link u).

Definition set_otp (s : option OtpDigest) (e : option Time) (u : User) : User :=
  mkUser (_id u) (method u) (name u) (email u) (role u) (avatar u)
         (password u) (isEmailVerified u) s e
         (google_link u) (facebook_link u).

End UserModel.

(* ================================================================== *)
(** ** Asynchronous handlers: state and exceptions *)

Module Async.

Import UserModel.

Inductive Exn :=
| ReferenceError (ident : string)
| ValidationError (msg : string)
| CastError (value : string)
| Error (msg : string).

(** [error.message] *)
Definition exn_message (e : Exn) : string :=
  match e with
  | ReferenceError x => x ++ " is not defined"
  | ValidationError m => "User validation failed: " ++ m
  | CastError v => "Cast to ObjectId failed for value " ++ v
  | Error m => m
  end.

(** Every call that reaches the collection leaves an entry. *)
Inductive DbOp :=
| OpFindOne (path value : string)
| OpFindById (id : IdString)
| OpInsert (id : ObjectId)
| OpUpdate (id : ObjectId).

Record World := mkWorld {
  users : list User;
  nextId : ObjectId;
  dbLog : list DbOp
}.

Definition M (A : Type) : Type := World -> (Exn + A) * World.

Definition ret {A} (a : A) : M A := fun w => (inr a, w).

Definition throw {A} (e : Exn) : M A := fun w => (inl e, w).

Definition bind {A B} (m : M A) (k : A -> M B) : M B :=
  fun w =>
    match m w with
    | (inr a, w') => k a w'
    | (inl e, w') => (inl e, w')
    end.

(** [try { body } catch (error) { handler }]: the handler's result is the
    handler's response; the state reached before the throw stays. *)
Definition tryCatch {A} (body : M A) (handler : Exn -> A) : World -> A * World :=
  fun w =>
    match body w with
    | (inr a, w') => (a, w')
    | (inl e, w') => (handler e, w')
    end.

(** The world after one more call to the collection was recorded. *)
Definition logged (op : DbOp) (w : World) : World :=
  mkWorld (users w) (nextId w) (dbLog w ++ [op]).

Definition log (op : DbOp) : M unit :=
  fun w => (inr tt, logged op w).

Definition getUsers : M (list User) := fun w => (inr (users w), w).

Definition putUsers (us : list User) : M unit :=
  fun w => (inr tt, mkWorld us (nextId w) (dbLog w)).

(** The identifier a [new User(...)] receives. *)
Definition newObjectId : M ObjectId :=
  fun w => (inr (nextId w), mkWorld (users w) (S (nextId w)) (dbLog w)).

End Async.

Declare Scope async_scope.
Delimit Scope async_scope with async.
Notation "x <- m ;; k" := (Async.bind m (fun x => k))
  (at level 61, m at next level, right associativity) : async_scope.
Notation "m ;;; k" := (Async.bind m (fun _ => k))
  (at level 61, right associativity) : async_scope.

(* ================================================================== *)
(** ** Process configuration and the capabilities of a request *)

Module Config.

Import UserModel.

Record Env := mkEnv {
  now : Time;                               (* Clock.now() *)
  randomOtp : string;                       (* the code the generator draws *)
  salt : nat;                               (* bcrypt.genSalt(10) *)
  emailDelivers : string -> string -> bool; (* sendOTPEmail(to, otp) *)
  development : bool;                       (* NODE_ENV === 'development' *)
  JWT_SECRET : string;
  JWT_EXPIRES_IN : Z;
  CLIENT_URL : string;
  OTP_TTL : Z
}.

End Config.

(* ================================================================== *)
(** ** The collection: [User.findOne], [User.findById], [save], ... *)

Module Repo.

Import Chars UserModel Async Config.
Local Open Scope async_scope.

Definition link_is (pid : string) (l : option ProviderLink) : bool :=
  match l with
  | Some k => String.eqb (link_id k) pid
  | None => false
  end.

(** [User.findOne({ email })]: the filter is cast through the schema, so
    the [lowercase] setter applies to it as it does to stored values. *)
Definition findOne_email (e : string) : M (option User) :=
  log (OpFindOne "email" e) ;;;
  us <- getUsers ;;
  ret (find (fun u => String.eqb (email u) (toLowerCase e)) us).

(** [User.findOne({ 'google.id': id })] *)
Definition findOne_google (pid : string) : M (option User) :=
  log (OpFindOne "google.id" pid) ;;;
  us <- getUsers ;;
  ret (find (fun u => link_is pid (google_link u)) us).

(** [User.findOne({ 'facebook.id': id })] *)
Definition findOne_facebook (pid : string) : M (option User) :=
  log (OpFindOne "facebook.id" pid) ;;;
  us <- getUsers ;;
  ret (find (fun u => link_is pid (facebook_link u)) us).

(** [User.findById(id)] *)
Definition findById (i : IdString) : M (option User) :=
  log (OpFindById i) ;;;
  match i with
  | NotAnId raw => throw (CastError raw)
  | HexId o =>
      us <- getUsers ;;
      ret (find (fun u => Nat.eqb (_id u) o) us)
  end.

Fixpoint replace_by_id (u : User) (us : list User) : list User :=
  match us with
  | [] => []
  | v :: rest =>
      if Nat.eqb (_id v) (_id u) then u :: rest
      else v :: replace_by_id u rest
  end.

(** [doc.save()] on a document that was loaded from, or already written
    to, the collection: the stored document with the same [_id] takes the
    document's fields.  No flow assigns [password] on such a document, so
    the hashing hook has nothing to do here, and the paths the flows do
    assign ([role] within its enum, the challenge, [isEmailVerified])
    pass validation.  Projections ([select]) are left out: every flow
    selects the paths it reads. *)
Definition save (u : User) : M unit :=
  log (OpUpdate (_id u)) ;;;
  us <- getUsers ;;
  putUsers (replace_by_id u us).

(** [User.findByIdAndUpdate(id, { role })] *)
Definition findByIdAndUpdate_role (o : ObjectId) (r : Role) : M unit :=
  log (OpUpdate o) ;;;
  us <- getUsers ;;
  putUsers (map (fun v => if Nat.eqb (_id v) o then set_role r v else v) us).

(** Schema validation of a new document: [name] is required, [email]
    has to match the pattern. *)
Definition validate (u : User) : M unit :=
  if negb (name_ok (name u)) then throw (ValidationError "name: Path `name` is required.")
  else if negb (email_ok (email u)) then throw (ValidationError "email: Please add a valid email")
  else ret tt.

(** Modelled from the spec: the [pre('save')] hook under src/ returns
    early for federated accounts and for an unmodified password, and
    otherwise replaces [local.password], a path no controller sets, by its
    salted hash; the hook of the missing schema revision is taken to do
    so for [password] ("hashing occurs exactly once, at local-account
    creation, before the account is persisted").  A password that was
    assigned since the last save is the one still held as [Plaintext]. *)
Definition preSave (env : Env) (u : User) : User :=
  if negb (Method_eqb (method u) local) then u
  else match password u with
       | Some (Plaintext p) => set_password (Some (bcrypt_hash (salt env) p)) u
       | _ => u
       end.

(** [doc.save()] on a document built with [new User(...)]: validation,
    then the pre-save hook, then the insert. *)
Definition save_new (env : Env) (u : User) : M User :=
  validate u ;;;
  let u' := preSave env u in
  log (OpInsert (_id u')) ;;;
  us <- getUsers ;;
  putUsers (us ++ [u']) ;;;
  ret u'.

End Repo.

(* ================================================================== *)
(** ** Instance methods of the model used by the controllers *)

Module Methods.

Import UserModel Async Config Repo.
Local Open Scope async_scope.

(** Modelled from the spec: the schema revision the last controller is
    written against (paths [password], [isEmailVerified], [otpSecret],
    [otpExpires], and [User.create] without a [method]) is not under src/;
    the schema that is there has none of them.  A local registration
    "creates account with [method=local], hashed password, ...,
    [isEmailVerified=false]", with no challenge outstanding and no
    provider link. *)
Definition create (env : Env) (name email password : string) (r : Role)
  : M User :=
  id <- newObjectId ;;
  save_new env
    (mkUser id local name (Chars.toLowerCase email) r "" 
            (Some (Plaintext password)) false None None None None).

(** Modelled from the spec: [generateOTP] is a method of the missing
    schema revision.  "generates a fixed-length numeric code, stores
    [{hash(code), now + TTL}] on the account, overwriting any prior
    challenge, and returns the plaintext code". *)
Definition generateOTP (env : Env) (u : User) : string * User :=
  (randomOtp env,
   set_otp (Some (OtpHash (randomOtp env))) (Some (now env + OTP_TTL env)%Z) u).

(** Modelled from the spec: [verifyOTP] is a method of the missing schema
    revision.  "fails closed - returns false if no challenge is
    outstanding, if [now > expiresAt], or if the hash of [suppliedCode]
    does not match". *)
Definition verifyOTP (env : Env) (u : User) (supplied : string) : bool :=
  match otpSecret u, otpExpires u with
  | Some (OtpHash code), Some expiresAt =>
      if (expiresAt <? now env)%Z then false
      else String.eqb supplied code
  | _, _ => false
  end.

(** Modelled from the spec: [comparePassword] is a method of the missing
    schema revision.  "[verify(plaintext, digest) -> bool]", delegated to
    the hash scheme's own comparison; bcrypt refuses to compare against
    an absent digest. *)
Definition comparePassword (u : User) (entered : string) : M bool :=
  match password u with
  | Some digest => ret (bcrypt_compare entered digest)
  | None => throw (Error "Illegal arguments: string, undefined")
  end.

End Methods.

(* ================================================================== *)
(** ** Tokens: [jsonwebtoken] and [generateToken] (config/passport) *)

Module Jwt.

Import UserModel Config.

(** The values a claim can hold in these flows. *)
Inductive JsVal :=
| JUndefined
| JString (s : string)
| JHexId (o : ObjectId)     (* the 24-digit hexadecimal string of an _id *)
| JRawId (o : ObjectId).    (* the 12 raw bytes of an _id *)

Record Payload := mkPayload {
  claim_id : JsVal;
  claim_email : JsVal;
  claim_role : JsVal
}.

Record Token := mkToken {
  payload : Payload;
  signedWith : string;
  iat : Time;
  exp : Time
}.

(** [jwt.sign(payload, secret, { expiresIn })] *)
Definition sign (env : Env) (p : Payload) (secret : string) (expiresIn : Z)
  : Token :=
  mkToken p secret (now env) (now env + expiresIn)%Z.

(** What [generateToken] is applied to: a user document, or an
    [ObjectId]. *)
Inductive JsObject :=
| Document (u : User)
| AnObjectId (o : ObjectId).

(** Property reads.  A document has the [id] virtual (its [_id] as a
    hexadecimal string), [email] and [role]; an [ObjectId] has [id], its
    raw bytes, and neither [email] nor [role]. *)
Definition get_id (v : JsObject) : JsVal :=
  match v with
  | Document u => JHexId (_id u)
  | AnObjectId o => JRawId o
  end.

Definition get_email (v : JsObject) : JsVal :=
  match v with
  | Document u => JString (email u)
  | AnObjectId _ => JUndefined
  end.

Definition get_role (v : JsObject) : JsVal :=
  match v with
  | Document u => JString (role_string (role u))
  | AnObjectId _ => JUndefined
  end.

(** [generateToken = (user) => jwt.sign({ id: user.id, email: user.email,
    role: user.role }, JWT_SECRET, { expiresIn: JWT_EXPIRES_IN })] *)
Definition generateToken (env : Env) (user : JsObject) : Token :=
  let payload := mkPayload (get_id user) (get_email user) (get_role user) in
  sign env payload (JWT_SECRET env) (JWT_EXPIRES_IN env).

(** The claims the token of an account is meant to carry. *)
Definition claims_of (u : User) : Payload :=
  mkPayload (JHexId (_id u)) (JString (email u)) (JString (role_string (role u))).

End Jwt.

(* ================================================================== *)
(** ** Passport strategies (config/passport) *)

Module Passport.

Import Chars UserModel Async Config Repo.
Local Open Scope async_scope.

Record Profile := mkProfile {
  profile_id : string;
  emails : list string;        (* the [value] of each entry *)
  displayName : string;
  photos : list string         (* the [value] of each entry *)
}.

(** [xs && xs[0] ? xs[0].value : ''] *)
Definition first_or_empty (xs : list string) : string :=
  match xs with
  | x :: _ => x
  | [] => ""
  end.

(** The verify callback of the Google strategy; [done(error, null)] is
    the exception of the monad. *)
Definition googleVerify (env : Env) (profile : Profile) : M User :=
  existingUser <- findOne_google (profile_id profile) ;;
  match existingUser with
  | Some u => ret u
  | None =>
      let email := first_or_empty (emails profile) in
      id <- newObjectId ;;
      let newUser :=
        mkUser id google (displayName profile) (toLowerCase email) user
               (first_or_empty (photos profile)) None false None None
               (Some (mkLink (profile_id profile) (toLowerCase email))) None in
      save_new env newUser
  end.

(** The verify callback of the Facebook strategy. *)
Definition facebookVerify (env : Env) (profile : Profile) : M User :=
  existingUser <- findOne_facebook (profile_id profile) ;;
  match existingUser with
  | Some u => ret u
  | None =>
      let email := first_or_empty (emails profile) in
      id <- newObjectId ;;
      let newUser :=
        mkUser id facebook (displayName profile) (toLowerCase email) user
               (first_or_empty (photos profile)) None false None None
               None (Some (mkLink (profile_id profile) (toLowerCase email))) in
      save_new env newUser
  end.

End Passport.

(* ================================================================== *)
(** ** Responses *)

Module Http.

Import UserModel Async Jwt.

(** The [data] member of a JSON body. *)
Record Data := mkData {
  d_user : option User;
  d_email : option string;
  d_otp : option string;
  d_requiresVerification : bool
}.

Record Json := mkJson {
  success : bool;
  message : option string;
  token : option Token;
  redirectUrl : option string;
  data : option Data;
  error : option string
}.

Inductive Response :=
| Status (code : nat) (body : Json)           (* res.status(code).json(body) *)
| Redirect (url : string) (tok : option Token) (* res.redirect(url?token=tok) *)
| NextError (e : Exn).                         (* next(err) *)

(** [{ success: false, message }] *)
Definition failure (msg : string) : Json :=
  mkJson false (Some msg) None None None None.

(** The token a response hands to the client, if any. *)
Definition issued (r : Response) : option Token :=
  match r with
  | Status _ body => token body
  | Redirect _ tok => tok
  | NextError _ => None
  end.

Definition status_of (r : Response) : option nat :=
  match r with
  | Status code _ => Some code
  | _ => None
  end.

End Http.

(* ================================================================== *)
(** ** controllers/authController.js *)

Module AuthController.

Import UserModel Async Config Repo Methods Jwt Http.
Local Open Scope async_scope.

(** [signToken] is called by [verifyEmail], but the controller neither
    declares it nor imports it ([User], [generateToken] and
    [sendOTPEmail] are all it requires): evaluating the call throws. *)
Definition signToken (_ : ObjectId) : M Token :=
  throw (ReferenceError "signToken").

Definition dashboard (r : Role) : string :=
  if Role_eqb r admin then "/admin/dashboard" else "/dashboard".

(** [process.env.NODE_ENV === 'development' ? otp : undefined] *)
Definition dev_otp (env : Env) (otp : string) : option string :=
  if development env then Some otp else None.

(** [googleCallback]: [req.isAdminLogin] and [req.user] are what the
    route and Passport left on the request. *)
Definition googleCallback (env : Env) (isAdminLogin : bool) (reqUser : User)
  : World -> Response * World :=
  tryCatch
    (u <- (if isAdminLogin
           then let promoted := set_role admin reqUser in
                findByIdAndUpdate_role (_id promoted) admin ;;;
                ret promoted
           else ret reqUser) ;;
     let token := generateToken env (Document u) in
     let redirectPath := dashboard (role u) in
     ret (Redirect (CLIENT_URL env ++ redirectPath) (Some token)))
    (fun _ => Redirect (CLIENT_URL env ++ "/auth/failure") None).

(** [facebookCallback] *)
Definition facebookCallback (env : Env) (isAdminLogin : bool) (reqUser : User)
  : World -> Response * World :=
  tryCatch
    (u <- (if isAdminLogin
           then let promoted := set_role admin reqUser in
                findByIdAndUpdate_role (_id promoted) admin ;;;
                ret promoted
           else ret reqUser) ;;
     let token := generateToken env (Document u) in
     ret (Redirect (CLIENT_URL env ++ "/auth/success") (Some token)))
    (fun _ => Redirect (CLIENT_URL env ++ "/auth/failure") None).

(** [updateUserRole]: [role] is [req.body.role] ([None] when the body has
    no such member), [userId] is [req.params.userId].  The 404 message is
    kept to its fixed part. *)
Definition truthy (v : option string) : bool :=
  match v with
  | Some s => negb (String.eqb s "")
  | None => false
  end.

Definition includes (xs : list string) (v : option string) : bool :=
  match v with
  | Some s => existsb (String.eqb s) xs
  | None => false
  end.

(** [user.role = role]: the path is an enum of the schema. *)
Definition assign_role (u : User) (v : option string) : M User :=
  match v with
  | Some s =>
      match role_of_string s with
      | Some r => ret (set_role r u)
      | None => throw (ValidationError "role: not a valid enum value")
      end
  | None => throw (ValidationError "role: not a valid enum value")
  end.

Definition server_error (e : Exn) : Response :=
  Status 500 (mkJson false (Some "Server Error") None None None
                     (Some (exn_message e))).

Definition message_error (e : Exn) : Response :=
  Status 500 (failure (exn_message e)).

Definition updateUserRole (role : option string) (userId : IdString)
  : World -> Response * World :=
  tryCatch
    (if negb (truthy role) || negb (includes ["user"; "admin"] role)
     then ret (Status 400 (failure "Please provide a valid role (user or admin)"))
     else
       found <- findById userId ;;
       match found with
       | None => ret (Status 404 (failure "No user found with id"))
       | Some u =>
           u' <- assign_role u role ;;
           save u' ;;;
           ret (Status 200 (mkJson true None None None
                              (Some (mkData (Some u') None None false)) None))
       end)
    server_error.

Record RegisterBody := mkRegisterBody {
  reg_name : string;
  reg_email : string;
  reg_password : string
}.

(** [register] *)
Definition register (env : Env) (isAdminLogin : bool) (body : RegisterBody)
  : World -> Response * World :=
  tryCatch
    (existing <- findOne_email (reg_email body) ;;
     match existing with
     | Some _ => ret (Status 400 (failure "User already exists"))
     | None =>
         created <- create env (reg_name body) (reg_email body)
                           (reg_password body)
                           (if isAdminLogin then admin else user) ;;
         let (otp, u) := generateOTP env created in
         save u ;;;
         let emailSent := emailDelivers env (reg_email body) otp in
         if negb emailSent
         then ret (Status 500 (failure "Error sending verification email"))
         else ret (Status 200
                     (mkJson true
                        (Some ((if isAdminLogin then "Admin" else "User") ++
                               " registered. Please check your email for verification code."))
                        None None
                        (Some (mkData None (Some (reg_email body))
                                      (dev_otp env otp) false))
                        None))
     end)
    message_error.

(** [resendVerification] *)
Definition resendVerification (env : Env) (email : string)
  : World -> Response * World :=
  tryCatch
    (found <- findOne_email email ;;
     match found with
     | None => ret (Status 404 (failure "User not found"))
     | Some u0 =>
         if isEmailVerified u0
         then ret (Status 400 (failure "Email is already verified"))
         else
           let (otp, u) := generateOTP env u0 in
           save u ;;;
           let emailSent := emailDelivers env email otp in
           if negb emailSent
           then ret (Status 500 (failure "Error sending verification email"))
           else ret (Status 200
                       (mkJson true (Some "Verification email sent successfully")
                          None None
                          (Some (mkData None (Some email) (dev_otp env otp) false))
                          None))
     end)
    message_error.

Record LoginBody := mkLoginBody {
  login_email : string;
  login_password : string
}.

(** [login] *)
Definition login (env : Env) (isAdminLogin : bool) (body : LoginBody)
  : World -> Response * World :=
  tryCatch
    (found <- findOne_email (login_email body) ;;
     match found with
     | None => ret (Status 401 (failure "Invalid credentials"))
     | Some u0 =>
         matches <- comparePassword u0 (login_password body) ;;
         if negb matches
         then ret (Status 401 (failure "Invalid credentials"))
         else if isAdminLogin && negb (Role_eqb (role u0) admin)
         then ret (Status 403 (failure "Not authorized for admin access"))
         else if negb isAdminLogin && Role_eqb (role u0) admin
         then ret (Status 403 (failure "Please use admin login"))
         else if negb (isEmailVerified u0)
         then
           let (otp, u) := generateOTP env u0 in
           save u ;;;
           ret (Status 401
                  (mkJson false (Some "Please verify your email first") None None
                     (Some (mkData None (Some (login_email body))
                                   (dev_otp env otp) true))
                     None))
         else
           let token := generateToken env (AnObjectId (_id u0)) in
           let redirectUrl := dashboard (role u0) in
           ret (Status 200
                  (mkJson true None (Some token) (Some redirectUrl)
                     (Some (mkData (Some u0) None None false)) None))
     end)
    message_error.

Record VerifyBody := mkVerifyBody {
  verify_email : string;
  verify_otp : string
}.

(** [verifyEmail] *)
Definition verifyEmail (env : Env) (body : VerifyBody)
  : World -> Response * World :=
  tryCatch
    (found <- findOne_email (verify_email body) ;;
     match found with
     | None => ret (Status 404 (failure "User not found"))
     | Some u0 =>
         if negb (verifyOTP env u0 (verify_otp body))
         then ret (Status 401 (failure "Invalid or expired OTP"))
         else
           let u := set_otp None None (set_isEmailVerified true u0) in
           save u ;;;
           token <- signToken (_id u) ;;
           let redirectUrl := dashboard (role u) in
           ret (Status 200
                  (mkJson true (Some "Email verified successfully")
                     (Some token) (Some redirectUrl)
                     (Some (mkData (Some u) None None false)) None))
     end)
    message_error.

End AuthController.

(* ================================================================== *)
(** ** routes/authRoutes.js: the OAuth callback routes *)

Module Routes.

Import UserModel Async Config Passport Http AuthController.

(** What the provider hands back to the callback URL. *)
Inductive ProviderAnswer :=
| Granted (p : Profile)
| Denied.

(** [passport.authenticate(strategy, { session: false, failureRedirect })]
    followed by the controller: a failed exchange redirects to the
    failure page, an error of the verify callback goes to [next(err)],
    and a user is left on [req.user] for the controller. *)
Definition authenticate_then
    (env : Env) (verify : Env -> Profile -> M User)
    (controller : User -> World -> Response * World)
    (answer : ProviderAnswer) : World -> Response * World :=
  fun w =>
    match answer with
    | Denied => (Redirect (CLIENT_URL env ++ "/auth/failure") None, w)
    | Granted p =>
        match verify env p w with
        | (inr u, w') => controller u w'
        | (inl e, w') => (NextError e, w')
        end
    end.

(** [GET /google/callback] *)
Definition google_callback_route (env : Env) :=
  authenticate_then env googleVerify (googleCallback env false).

(** [GET /admin/google/callback]: [req.isAdminLogin = true] first. *)
Definition admin_google_callback_route (env : Env) :=
  authenticate_then env googleVerify (googleCallback env true).

(** [GET /facebook/callback] *)
Definition facebook_callback_route (env : Env) :=
  authenticate_then env facebookVerify (facebookCallback env false).

(** [GET /admin/facebook/callback]: [req.isAdminLogin = true] first. *)
Definition admin_facebook_callback_route (env : Env) :=
  authenticate_then env facebookVerify (facebookCallback env true).

End Routes.

(* ================================================================== *)
(** ** The request surface as one step function, and the invariant of
       the collection *)

Module Flows.

Import UserModel Async Config Repo Methods Jwt Passport Http AuthController
       Routes.

Inductive Request :=
| Register (isAdminLogin : bool) (b : RegisterBody)
| ResendVerification (email : string)
| Login (isAdminLogin : bool) (b : LoginBody)
| VerifyEmail (b : VerifyBody)
| GoogleCallback (isAdminLogin : bool) (a : ProviderAnswer)
| FacebookCallback (isAdminLogin : bool) (a : ProviderAnswer)
| UpdateUserRole (role : option string) (userId : IdString).

Definition handle (env : Env) (r : Request) : World -> Response * World :=
  match r with
  | Register adm b => register env adm b
  | ResendVerification e => resendVerification env e
  | Login adm b => login env adm b
  | VerifyEmail b => verifyEmail env b
  | GoogleCallback adm a =>
      authenticate_then env googleVerify (googleCallback env adm) a
  | FacebookCallback adm a =>
      authenticate_then env facebookVerify (facebookCallback env adm) a
  | UpdateUserRole role userId => updateUserRole role userId
  end.

(** The account a token names: the [_id] behind its [id] claim. *)
Definition subject (t : Token) : option ObjectId :=
  match claim_id (payload t) with
  | JHexId o => Some o
  | JRawId o => Some o
  | _ => None
  end.

(** [findById] as a pure lookup. *)
Definition lookup (o : ObjectId) (w : World) : option User :=
  find (fun u => Nat.eqb (_id u) o) (users w).

(** The invariant of section 3: an account may hold a session token if it
    is federated, or local and verified. *)
Definition eligible (u : User) : Prop :=
  method u <> local \/ (method u = local /\ isEmailVerified u = true).

(** A provider link sits only on an account of that provider. *)
Definition links_match (u : User) : Prop :=
  (google_link u <> None -> method u = google) /\
  (facebook_link u <> None -> method u = facebook).

Record wf (w : World) : Prop := mkWf {
  wf_links : forall u, In u (users w) -> links_match u;
  wf_fresh : forall u, In u (users w) -> _id u < nextId w;
  wf_nodup : NoDup (map _id (users w))
}.

Definition emptyWorld : World := mkWorld [] 0 [].

(** The email of a registration is free in [w]. *)
Definition email_free (e : string) (w : World) : Prop :=
  find (fun u => String.eqb (email u) (Chars.toLowerCase e)) (users w) = None.

(** The collection after [u] was written back over its stored version. *)
Definition written (u : User) (w : World) : World :=
  mkWorld (replace_by_id u (users w)) (nextId w) (dbLog w).

(** A registration body the schema accepts. *)
Definition valid_registration (b : RegisterBody) : Prop :=
  name_ok (reg_name b) = true /\
  email_ok (Chars.toLowerCase (reg_email b)) = true.

(** [role] is missing or outside [{user, admin}]. *)
Definition invalid_role (role : option string) : Prop :=
  forall s, role = Some s -> s <> "user" /\ s <> "admin".

(** Credentials that match the stored digest. *)
Definition credentials_ok (u : User) (entered : string) : Prop :=
  exists digest, password u = Some digest /\ bcrypt_compare entered digest = true.

(** The login surface and the role of the account disagree. *)
Definition surface_mismatch (isAdminLogin : bool) (u : User) : Prop :=
  (isAdminLogin = true /\ role u <> admin) \/
  (isAdminLogin = false /\ role u = admin).

(** [User.findOne({ email })] as a pure lookup. *)
Definition by_email (e : string) (w : World) : option User :=
  find (fun u => String.eqb (email u) (Chars.toLowerCase e)) (users w).

(** The account a registration leaves in the collection. *)
Definition registered_account
    (env : Env) (isAdminLogin : bool) (b : RegisterBody) (w : World) : User :=
  mkUser (nextId w) local (reg_name b) (Chars.toLowerCase (reg_email b))
         (if isAdminLogin then admin else user) ""
         (Some (bcrypt_hash (salt env) (reg_password b))) false
         (Some (OtpHash (randomOtp env))) (Some (now env + OTP_TTL env)%Z)
         None None.

(** The body of a successful registration response. *)
Definition registered_body (env : Env) (isAdminLogin : bool) (b : RegisterBody)
  : Json :=
  mkJson true
    (Some ((if isAdminLogin then "Admin" else "User") ++
           " registered. Please check your email for verification code."))
    None None
    (Some (mkData None (Some (reg_email b)) (dev_otp env (randomOtp env)) false))
    None.

(** The body of the pending-verification answer of [login]. *)
Definition pending_body (env : Env) (b : LoginBody) : Json :=
  mkJson false (Some "Please verify your email first") None None
         (Some (mkData None (Some (login_email b))
                       (dev_otp env (randomOtp env)) true))
         None.

Inductive Provider := Google | Facebook.

Definition verifyOf (p : Provider) : Env -> Profile -> M User :=
  match p with
  | Google => googleVerify
  | Facebook => facebookVerify
  end.

Definition linkOf (p : Provider) (u : User) : option ProviderLink :=
  match p with
  | Google => google_link u
  | Facebook => facebook_link u
  end.

(** [User.findOne({ '<provider>.id': pid })] as a pure lookup. *)
Definition by_link (p : Provider) (pid : string) (w : World) : option User :=
  find (fun u => link_is pid (linkOf p u)) (users w).

Definition link_path (p : Provider) : string :=
  match p with
  | Google => "google.id"
  | Facebook => "facebook.id"
  end.

Definition methodOf (p : Provider) : Method :=
  match p with
  | Google => google
  | Facebook => facebook
  end.

(** The document a verify callback builds for an unknown provider id. *)
Definition federated_account (p : Provider) (prof : Profile) (w : World)
  : User :=
  let email := Chars.toLowerCase (first_or_empty (emails prof)) in
  let link := Some (mkLink (profile_id prof) email) in
  mkUser (nextId w) (methodOf p) (displayName prof) email user
         (first_or_empty (photos prof)) None false None None
         (match p with Google => link | Facebook => None end)
         (match p with Google => None | Facebook => link end).

(** A new federated document passes the schema. *)
Definition profile_accepted (prof : Profile) : bool :=
  name_ok (displayName prof) &&
  email_ok (Chars.toLowerCase (first_or_empty (emails prof))).

(** [findByIdAndUpdate(id, { role: 'admin' })] on the accounts. *)
Definition promote (o : ObjectId) (us : list User) : list User :=
  map (fun v => if Nat.eqb (_id v) o then set_role admin v else v) us.

Definition admin_route (p : Provider) (env : Env)
  : ProviderAnswer -> World -> Response * World :=
  match p with
  | Google => admin_google_callback_route env
  | Facebook => admin_facebook_callback_route env
  end.

(** A concrete environment and the scenario of section 8. *)
Definition env0 : Env :=
  mkEnv 100%Z "123456" 7 (fun _ _ => true) false "secret" 3600%Z "http://client" 600%Z.

Definition env_undelivered : Env :=
  mkEnv 100%Z "123456" 7 (fun _ _ => false) false "secret" 3600%Z "http://client" 600%Z.

Definition alice : RegisterBody := mkRegisterBody "A" "a@x.com" "p1".

Definition w_registered : World := snd (register env0 false alice emptyWorld).

Definition w_verified : World :=
  snd (verifyEmail env0 (mkVerifyBody "a@x.com" "123456") w_registered).

Definition prof_g : Profile := mkProfile "g-1" ["G@x.com"] "G" [].

(** The same provider id, with every other attribute changed. *)
Definition prof_g_drifted : Profile :=
  mkProfile "g-1" ["other@x.com"] "Renamed" ["http://pic"].

Definition g_account : User :=
  mkUser 0 google "G" "g@x.com" user "" None false None None
         (Some (mkLink "g-1" "g@x.com")) None.

(** The collection after a first Google sign-in through the user route. *)
Definition w_g : World :=
  snd (google_callback_route env0 (Granted prof_g) emptyWorld).

Definition alice_pending : User :=
  mkUser 0 local "A" "a@x.com" user "" (Some (Bcrypt 7 "p1")) false
         (Some (OtpHash "123456")) (Some 700%Z) None None.

Definition alice_verified : User :=
  mkUser 0 local "A" "a@x.com" user "" (Some (Bcrypt 7 "p1")) true None None
         None None.

End Flows.

(* ================================================================== *)
(** ** Sessions (config/passport): what goes into the session, and back *)

Module Session.

Import UserModel Async Repo.

(** [passport.serializeUser((user, done) => done(null, user.id))] *)
Definition serializeUser (u : User) : IdString := HexId (_id u).

(** [passport.deserializeUser]: [done(null, user)] with what
    [User.findById(id)] resolves to ([null] when there is no such
    document), [done(error, null)] when it throws. *)
Definition deserializeUser (id : IdString) : M (option User) := findById id.

End Session.

(* ================================================================== *)
(** ** Shapes of patterns, used to reason about the [match] validator *)

Module RegexFacts.

Import Chars Regex.

(** A pattern that visibly matches nothing. *)
Fixpoint void (r : re) : bool :=
  match r with
  | Void => true
  | Cat a b => void a || void b
  | Alt a b => void a && void b
  | _ => false
  end.

(** Every class of the pattern accepts only characters of [P]. *)
Fixpoint within (P : ascii -> bool) (r : re) : Prop :=
  match r with
  | Class p => forall c, p c = true -> P c = true
  | Cat a b | Alt a b => within P a /\ within P b
  | Star a => within P a
  | _ => True
  end.


Fixpoint all_chars (P : ascii -> bool) (s : string) : bool :=
  match s with
  | EmptyString => true
  | String c rest => P c && all_chars P rest
  end.

(** The characters an address that passes the schema can be made of. *)
Definition address_char (c : ascii) : bool :=
  is_word c || Ascii.eqb "." c || Ascii.eqb "-" c || Ascii.eqb "@" c.

End RegexFacts.

(* ================================================================== *)
(** ** Histories of requests, and what a request may do to an account *)

Module History.

Import UserModel Async Config Http Flows.

(** The requests of a history, each with the environment it ran in,
    served one after the other. *)
Fixpoint serve (h : list (Env * Request)) (w : World) : World :=
  match h with
  | [] => w
  | (env, r) :: rest => serve rest (snd (handle env r w))
  end.

(** The requests that may set a role. *)
Definition sets_role (r : Request) : bool :=
  match r with
  | UpdateUserRole _ _ => true
  | GoogleCallback adm _ => adm
  | FacebookCallback adm _ => adm
  | _ => false
  end.

(** [u'] is a later state of the account [u]: identity, contact data,
    credential and provider links are those of [u], a verified email
    stays verified, and the role is the same when [keep_role] holds. *)
Record evolves (keep_role : bool) (u u' : User) : Prop := mkEvolves {
  ev_id : _id u' = _id u;
  ev_method : method u' = method u;
  ev_name : name u' = name u;
  ev_email : email u' = email u;
  ev_avatar : avatar u' = avatar u;
  ev_password : password u' = password u;
  ev_google : google_link u' = google_link u;
  ev_facebook : facebook_link u' = facebook_link u;
  ev_verified : isEmailVerified u = true -> isEmailVerified u' = true;
  ev_role : keep_role = true -> role u' = role u
}.

(** The accounts [us'] are the accounts [us], each possibly evolved and
    in the same order, followed by at most one new account. *)
Definition frame (keep_role : bool) (us us' : list User) : Prop :=
  exists kept added,
    us' = (kept ++ added)%list /\
    Forall2 (evolves keep_role) us kept /\
    length added <= 1.

(** The one-time code a response discloses, if any. *)
Definition disclosed_otp (r : Response) : option string :=
  match r with
  | Status _ body =>
      match data body with
      | Some d => d_otp d
      | None => None
      end
  | _ => None
  end.

(** The user route of a provider: the callback without admin intent. *)
Definition user_route (p : Provider) (env : Env)
  : Routes.ProviderAnswer -> World -> Response * World :=
  match p with
  | Google => Routes.google_callback_route env
  | Facebook => Routes.facebook_callback_route env
  end.

(** Where the user route sends the browser after a sign-in. *)
Definition landing (p : Provider) (u : User) : string :=
  match p with
  | Google => AuthController.dashboard (role u)
  | Facebook => "/auth/success"
  end.

End History.

(* ================================================================== *)
(** * Properties *)

Import UserModel Async Config Repo Methods Jwt Passport Http AuthController
       Routes Flows.
Import Session RegexFacts History.

Local Open Scope list_scope.

Ltac run :=
  unfold tryCatch, bind, ret, throw, log, logged, getUsers, putUsers,
         newObjectId in *; simpl in *.

(** ** Role update *)

Lemma invalid_role_guard (role : option string) :
  invalid_role role ->
  negb (truthy role) || negb (includes ["user"; "admin"] role) = true.
Proof.
  intros H. destruct role as [s|]; simpl; [|reflexivity].
  destruct (H s eq_refl) as [Hu Ha].
  apply String.eqb_neq in Hu. apply String.eqb_neq in Ha.
  rewrite Hu, Ha. simpl. apply orb_true_r.
Qed.

(** C10. In [updateUserRole] the role is validated before the target is
    looked up: when the role is missing or outside [{user, admin}] the
    answer is 400 "Please provide a valid role" and the world is left as
    it was, with no entry added to the log of collection calls, whatever
    the target identifier is (absent, or not even an identifier). *)
Theorem updateUserRole_invalid_role_first
    (role : option string) (userId : IdString) (w : World) :
  invalid_role role ->
  updateUserRole role userId w =
    (Status 400 (failure "Please provide a valid role (user or admin)"), w).
Proof.
  intros H. unfold updateUserRole, tryCatch.
  rewrite (invalid_role_guard role H). reflexivity.
Qed.

Lemma updateUserRole_invalid_role_first_witness :
  invalid_role (Some "root") /\
  updateUserRole (Some "root") (NotAnId "zz") emptyWorld =
    (Status 400 (failure "Please provide a valid role (user or admin)"),
     emptyWorld).
Proof.
  assert (H : invalid_role (Some "root")).
  { intros s E. injection E as <-. split; discriminate. }
  split; [exact H|].
  exact (updateUserRole_invalid_role_first (Some "root") (NotAnId "zz")
           emptyWorld H).
Defined.

(** ** Local login *)

Lemma findOne_email_run (e : string) (w : World) :
  findOne_email e w = (inr (by_email e w), logged (OpFindOne "email" e) w).
Proof. reflexivity. Qed.

Lemma comparePassword_ok (u : User) (entered : string) (w : World) :
  credentials_ok u entered -> comparePassword u entered w = (inr true, w).
Proof.
  intros [d [Hp Hc]]. unfold comparePassword. rewrite Hp, Hc. reflexivity.
Qed.

Lemma Role_eqb_eq (a b : Role) : Role_eqb a b = true <-> a = b.
Proof. destruct a, b; simpl; split; congruence. Qed.

Lemma Role_eqb_neq (a b : Role) : Role_eqb a b = false <-> a <> b.
Proof. destruct a, b; simpl; split; congruence. Qed.

(** C5. A local login with correct credentials fails with 403 when the
    surface and the role disagree: "Not authorized for admin access" for
    admin intent on a non-admin account, "Please use admin login" for
    user intent on an admin account.  Nothing is written and no token is
    returned. *)
Theorem login_surfaces_exclusive
    (env : Env) (isAdminLogin : bool) (body : LoginBody) (w : World) (u : User) :
  by_email (login_email body) w = Some u ->
  credentials_ok u (login_password body) ->
  surface_mismatch isAdminLogin u ->
  login env isAdminLogin body w =
    (Status 403 (failure (if isAdminLogin
                          then "Not authorized for admin access"
                          else "Please use admin login")),
     logged (OpFindOne "email" (login_email body)) w).
Proof.
  intros Hfind Hcred Hmis.
  unfold login, tryCatch, bind.
  rewrite findOne_email_run, Hfind.
  rewrite (comparePassword_ok _ _ _ Hcred). cbn [negb].
  destruct Hmis as [[-> Hr] | [-> Hr]].
  - apply Role_eqb_neq in Hr. rewrite Hr. reflexivity.
  - apply Role_eqb_eq in Hr. rewrite Hr. reflexivity.
Qed.

Lemma login_surfaces_exclusive_witness :
  by_email "a@x.com" w_verified = Some alice_verified /\
  login env0 true (mkLoginBody "a@x.com" "p1") w_verified =
    (Status 403 (failure "Not authorized for admin access"),
     logged (OpFindOne "email" "a@x.com") w_verified).
Proof.
  split; [reflexivity|].
  apply (login_surfaces_exclusive env0 true (mkLoginBody "a@x.com" "p1")
           w_verified alice_verified).
  - reflexivity.
  - exists (Bcrypt 7 "p1"). split; reflexivity.
  - left. split; [reflexivity | discriminate].
Defined.

(** ** Email verification *)

(** An accepted code: the account is marked verified, the challenge is
    cleared and the document is saved; the call to the unbound
    [signToken] then throws, and the handler answers 500. *)
Lemma verifyEmail_accepted
    (env : Env) (body : VerifyBody) (w : World) (u : User) :
  by_email (verify_email body) w = Some u ->
  verifyOTP env u (verify_otp body) = true ->
  verifyEmail env body w =
    (Status 500 (failure "signToken is not defined"),
     logged (OpUpdate (_id u))
       (written (set_otp None None (set_isEmailVerified true u))
          (logged (OpFindOne "email" (verify_email body)) w))).
Proof.
  intros Hfind Hotp.
  unfold verifyEmail, tryCatch, bind.
  rewrite findOne_email_run, Hfind, Hotp. reflexivity.
Qed.

Lemma verifyEmail_rejected
    (env : Env) (body : VerifyBody) (w : World) (u : User) :
  by_email (verify_email body) w = Some u ->
  verifyOTP env u (verify_otp body) = false ->
  verifyEmail env body w =
    (Status 401 (failure "Invalid or expired OTP"),
     logged (OpFindOne "email" (verify_email body)) w).
Proof.
  intros Hfind Hotp.
  unfold verifyEmail, tryCatch, bind.
  rewrite findOne_email_run, Hfind, Hotp. reflexivity.
Qed.

Lemma verifyEmail_unknown (env : Env) (body : VerifyBody) (w : World) :
  by_email (verify_email body) w = None ->
  verifyEmail env body w =
    (Status 404 (failure "User not found"),
     logged (OpFindOne "email" (verify_email body)) w).
Proof.
  intros Hfind.
  unfold verifyEmail, tryCatch, bind.
  rewrite findOne_email_run, Hfind. reflexivity.
Qed.

(** C8. A rejected code answers 401 "Invalid or expired OTP" and writes
    nothing: the accounts are those of before, so the account's
    [isEmailVerified] and its outstanding challenge are untouched.  The
    challenge is therefore not consumed: at any later time at which the
    check accepts a code for the stored account, a request with that code
    finds the same account and its verification takes effect. *)
Theorem verifyEmail_rejected_keeps_challenge
    (env : Env) (body : VerifyBody) (w : World) (u : User) :
  by_email (verify_email body) w = Some u ->
  verifyOTP env u (verify_otp body) = false ->
  let w' := snd (verifyEmail env body w) in
  fst (verifyEmail env body w) = Status 401 (failure "Invalid or expired OTP") /\
  users w' = users w /\
  nextId w' = nextId w /\
  by_email (verify_email body) w' = Some u /\
  forall (later : Env) (code : string),
    verifyOTP later u code = true ->
    users (snd (verifyEmail later (mkVerifyBody (verify_email body) code) w')) =
      replace_by_id (set_otp None None (set_isEmailVerified true u)) (users w).
Proof.
  intros Hfind Hotp.
  rewrite (verifyEmail_rejected env body w u Hfind Hotp). cbn [fst snd].
  repeat split; try reflexivity; try exact Hfind.
  intros later code Hcode.
  rewrite (verifyEmail_accepted later _ _ u); [reflexivity | exact Hfind | exact Hcode].
Qed.

Lemma verifyEmail_rejected_keeps_challenge_witness :
  by_email "a@x.com" w_registered = Some alice_pending /\
  verifyOTP env0 alice_pending "000000" = false /\
  users (snd (verifyEmail env0 (mkVerifyBody "a@x.com" "000000") w_registered)) =
    users w_registered /\
  users (snd (verifyEmail env0 (mkVerifyBody "a@x.com" "123456")
               (snd (verifyEmail env0 (mkVerifyBody "a@x.com" "000000")
                       w_registered)))) = [alice_verified].
Proof.
  pose proof (verifyEmail_rejected_keeps_challenge env0
                (mkVerifyBody "a@x.com" "000000") w_registered alice_pending
                eq_refl eq_refl)
    as [_ [Hsame [_ [_ Hlater]]]].
  split; [reflexivity|]. split; [reflexivity|]. split; [exact Hsame|].
  etransitivity; [exact (Hlater env0 "123456" eq_refl)|].
  reflexivity.
Defined.

(** C4. At the scenario of section 8 (register, then verify with the
    right code) the code is accepted, [isEmailVerified] becomes true, the
    challenge is cleared and the account is saved, but the response is
    500 "signToken is not defined" and carries no token. *)
Theorem verifyEmail_accepted_returns_no_token :
  users w_registered = [alice_pending] /\
  verifyOTP env0 alice_pending "123456" = true /\
  fst (verifyEmail env0 (mkVerifyBody "a@x.com" "123456") w_registered) =
    Status 500 (failure "signToken is not defined") /\
  issued (fst (verifyEmail env0 (mkVerifyBody "a@x.com" "123456") w_registered)) =
    None /\
  users (snd (verifyEmail env0 (mkVerifyBody "a@x.com" "123456") w_registered)) =
    [alice_verified] /\
  In (OpUpdate 0)
     (dbLog (snd (verifyEmail env0 (mkVerifyBody "a@x.com" "123456") w_registered))).
Proof.
  repeat split; try reflexivity.
  vm_compute. tauto.
Qed.

(** ** Local registration *)

Lemma replace_by_id_last (u c : User) (us : list User) :
  (forall v, In v us -> _id v <> _id u) ->
  _id c = _id u ->
  replace_by_id u (us ++ [c]) = us ++ [u].
Proof.
  intros Hfresh Hid. induction us as [|v rest IH]; simpl.
  - rewrite Hid, Nat.eqb_refl. reflexivity.
  - destruct (Nat.eqb (_id v) (_id u)) eqn:E.
    + apply Nat.eqb_eq in E. exfalso. apply (Hfresh v); [left; reflexivity | exact E].
    + f_equal. apply IH. intros x Hx. apply Hfresh. right. exact Hx.
Qed.

(** A valid registration on a free email: the accounts grow by exactly
    the registered account, and the response depends on the delivery. *)
Lemma register_free_run
    (env : Env) (isAdminLogin : bool) (body : RegisterBody) (w : World) :
  (forall u, In u (users w) -> _id u < nextId w) ->
  valid_registration body ->
  email_free (reg_email body) w ->
  users (snd (register env isAdminLogin body w)) =
    users w ++ [registered_account env isAdminLogin body w] /\
  nextId (snd (register env isAdminLogin body w)) = S (nextId w) /\
  fst (register env isAdminLogin body w) =
    if emailDelivers env (reg_email body) (randomOtp env)
    then Status 200 (registered_body env isAdminLogin body)
    else Status 500 (failure "Error sending verification email").
Proof.
  intros Hfresh [Hname Hemail] Hfree.
  unfold register, tryCatch, bind.
  rewrite findOne_email_run. unfold by_email. rewrite Hfree.
  unfold create, bind, newObjectId, save_new, bind, validate. cbn [email name].
  rewrite Hname, Hemail. cbn [negb].
  run.
  rewrite (replace_by_id_last (registered_account env isAdminLogin body w)).
  - destruct (emailDelivers env (reg_email body) (randomOtp env));
      simpl; repeat split; reflexivity.
  - intros v Hv Eq. simpl in Eq. specialize (Hfresh v Hv). lia.
  - reflexivity.
Qed.

Lemma register_taken_run
    (env : Env) (isAdminLogin : bool) (body : RegisterBody) (w : World) :
  by_email (reg_email body) w <> None ->
  register env isAdminLogin body w =
    (Status 400 (failure "User already exists"),
     logged (OpFindOne "email" (reg_email body)) w).
Proof.
  intros Htaken. unfold register, tryCatch, bind.
  rewrite findOne_email_run.
  destruct (by_email (reg_email body) w); [reflexivity | contradiction].
Qed.

Lemma wf_empty : wf emptyWorld.
Proof.
  split; simpl; intros; try contradiction. constructor.
Qed.

Lemma find_app_last {A} (f : A -> bool) (xs : list A) (x : A) :
  find f xs = None -> f x = true -> find f (xs ++ [x]) = Some x.
Proof.
  intros Hnone Hx. induction xs as [|y ys IH]; simpl in *.
  - rewrite Hx. reflexivity.
  - destruct (f y); [discriminate | auto].
Qed.

(** C3. A valid local registration on a free email adds exactly one
    account to the collection: its method is local, its password is the
    bcrypt digest of the submitted one under the drawn salt and not the
    plaintext, it is not email-verified, its role is admin exactly when
    the request came through the admin surface, and the response carries
    no token.  On a taken email the answer is 400 "User already exists"
    (the Conflict outcome) and no account is created. *)
Theorem register_creates_one_unverified_local_account
    (env : Env) (isAdminLogin : bool) (body : RegisterBody) (w : World) :
  wf w ->
  valid_registration body ->
  (email_free (reg_email body) w ->
   let u := registered_account env isAdminLogin body w in
   users (snd (register env isAdminLogin body w)) = users w ++ [u] /\
   method u = local /\
   password u = Some (bcrypt_hash (salt env) (reg_password body)) /\
   (forall p, password u <> Some (Plaintext p)) /\
   isEmailVerified u = false /\
   (role u = admin <-> isAdminLogin = true) /\
   issued (fst (register env isAdminLogin body w)) = None) /\
  (by_email (reg_email body) w <> None ->
   fst (register env isAdminLogin body w) =
     Status 400 (failure "User already exists") /\
   users (snd (register env isAdminLogin body w)) = users w /\
   nextId (snd (register env isAdminLogin body w)) = nextId w).
Proof.
  intros Hwf Hvalid. split.
  - intros Hfree u.
    destruct (register_free_run env isAdminLogin body w (wf_fresh w Hwf) Hvalid Hfree)
      as [Husers [_ Hresp]].
    split; [exact Husers|].
    repeat split; try reflexivity; try discriminate.
    + subst u. simpl. destruct isAdminLogin; [reflexivity | discriminate].
    + subst u. simpl. destruct isAdminLogin; [reflexivity | discriminate].
    + rewrite Hresp.
      destruct (emailDelivers env (reg_email body) (randomOtp env)); reflexivity.
  - intros Htaken. rewrite (register_taken_run env isAdminLogin body w Htaken).
    repeat split; reflexivity.
Qed.

Lemma register_creates_one_unverified_local_account_witness :
  wf emptyWorld /\
  valid_registration alice /\
  email_free (reg_email alice) emptyWorld /\
  users (snd (register env0 false alice emptyWorld)) = [alice_pending] /\
  issued (fst (register env0 false alice emptyWorld)) = None.
Proof.
  assert (Hvalid : valid_registration alice) by (split; reflexivity).
  destruct (register_creates_one_unverified_local_account env0 false alice
              emptyWorld wf_empty Hvalid) as [Hfree _].
  destruct (Hfree eq_refl) as [Husers [_ [_ [_ [_ [_ Hnone]]]]]].
  split; [exact wf_empty|]. split; [exact Hvalid|]. split; [reflexivity|].
  split; [exact Husers | exact Hnone].
Defined.

(** C9. When the account of a valid registration has been created and
    the delivery of the verification email then fails, the response is
    500 "Error sending verification email", and the account stays in the
    collection: the accounts are those of before plus the registered one,
    which a later lookup by its email finds. *)
Theorem register_delivery_failure_keeps_account
    (env : Env) (isAdminLogin : bool) (body : RegisterBody) (w : World) :
  wf w ->
  valid_registration body ->
  email_free (reg_email body) w ->
  emailDelivers env (reg_email body) (randomOtp env) = false ->
  fst (register env isAdminLogin body w) =
    Status 500 (failure "Error sending verification email") /\
  users (snd (register env isAdminLogin body w)) =
    users w ++ [registered_account env isAdminLogin body w] /\
  by_email (reg_email body) (snd (register env isAdminLogin body w)) =
    Some (registered_account env isAdminLogin body w).
Proof.
  intros Hwf Hvalid Hfree Hfail.
  destruct (register_free_run env isAdminLogin body w (wf_fresh w Hwf) Hvalid Hfree)
    as [Husers [_ Hresp]].
  rewrite Hfail in Hresp.
  repeat split; [exact Hresp | exact Husers |].
  unfold by_email. rewrite Husers.
  apply find_app_last; [exact Hfree|].
  simpl. apply String.eqb_refl.
Qed.

Lemma register_delivery_failure_keeps_account_witness :
  wf emptyWorld /\
  valid_registration alice /\
  email_free (reg_email alice) emptyWorld /\
  emailDelivers env_undelivered (reg_email alice) (randomOtp env_undelivered) = false /\
  fst (register env_undelivered false alice emptyWorld) =
    Status 500 (failure "Error sending verification email") /\
  users (snd (register env_undelivered false alice emptyWorld)) = [alice_pending].
Proof.
  assert (Hvalid : valid_registration alice) by (split; reflexivity).
  destruct (register_delivery_failure_keeps_account env_undelivered false alice
              emptyWorld wf_empty Hvalid eq_refl eq_refl) as [Hresp [Husers _]].
  split; [exact wf_empty|]. split; [exact Hvalid|]. split; [reflexivity|].
  split; [reflexivity|]. split; [exact Hresp | exact Husers].
Defined.

(** ** Federated identities *)

Lemma verify_found (p : Provider) (env : Env) (prof : Profile) (w : World) (u : User) :
  by_link p (profile_id prof) w = Some u ->
  verifyOf p env prof w =
    (inr u, logged (OpFindOne (link_path p) (profile_id prof)) w).
Proof.
  intros H. destruct p; simpl;
    [unfold googleVerify, findOne_google | unfold facebookVerify, findOne_facebook];
    unfold by_link in H; run; rewrite H; reflexivity.
Qed.

Lemma verify_unknown (p : Provider) (env : Env) (prof : Profile) (w : World) :
  by_link p (profile_id prof) w = None ->
  let u := federated_account p prof w in
  (profile_accepted prof = true /\
   fst (verifyOf p env prof w) = inr u /\
   users (snd (verifyOf p env prof w)) = users w ++ [u] /\
   nextId (snd (verifyOf p env prof w)) = S (nextId w)) \/
  (profile_accepted prof = false /\
   (exists e, fst (verifyOf p env prof w) = inl e) /\
   users (snd (verifyOf p env prof w)) = users w /\
   nextId (snd (verifyOf p env prof w)) = S (nextId w)).
Proof.
  intros H u. subst u. unfold profile_accepted.
  destruct p; simpl;
    [unfold googleVerify, findOne_google | unfold facebookVerify, findOne_facebook];
    unfold by_link in H; unfold save_new, validate; run; rewrite H; simpl;
    destruct (name_ok (displayName prof)); simpl;
    try (right; repeat split; eauto; fail);
    destruct (email_ok (Chars.toLowerCase (first_or_empty (emails prof)))); simpl;
    try (right; repeat split; eauto; fail);
    left; repeat split; reflexivity.
Qed.

Lemma federated_account_linked (p : Provider) (prof : Profile) (w : World) :
  link_is (profile_id prof) (linkOf p (federated_account p prof w)) = true.
Proof. destruct p; simpl; apply String.eqb_refl. Qed.

Lemma by_link_logged (p : Provider) (pid : string) (op : DbOp) (w : World) :
  by_link p pid (logged op w) = by_link p pid w.
Proof. reflexivity. Qed.

Lemma by_link_In (p : Provider) (pid : string) (w : World) (u : User) :
  by_link p pid w = Some u -> In u (users w) /\ link_is pid (linkOf p u) = true.
Proof. intros H. apply find_some in H. exact H. Qed.

(** What a successful verify callback leaves: the account it returns is
    in the collection and carries the provider id. *)
Lemma verify_result (p : Provider) (env : Env) (prof : Profile) (w w1 : World)
    (u : User) :
  verifyOf p env prof w = (inr u, w1) ->
  by_link p (profile_id prof) w1 = Some u /\
  (by_link p (profile_id prof) w = Some u /\ users w1 = users w \/
   by_link p (profile_id prof) w = None /\ u = federated_account p prof w /\
   profile_accepted prof = true /\
   users w1 = users w ++ [u] /\ nextId w1 = S (nextId w)).
Proof.
  intros Hrun.
  destruct (by_link p (profile_id prof) w) as [v|] eqn:Hfind.
  - rewrite (verify_found p env prof w v Hfind) in Hrun.
    injection Hrun as <- <-. rewrite by_link_logged. auto.
  - destruct (verify_unknown p env prof w Hfind) as [[Hacc [Hu [Hus Hn]]] | [_ [[e He] _]]];
      rewrite Hrun in *; simpl in *; [|discriminate].
    injection Hu as ->. split.
    + unfold by_link. rewrite Hus.
      apply find_app_last; [exact Hfind | apply federated_account_linked].
    + right. auto.
Qed.

(** C6. Two callbacks of the same provider with the same provider id
    create at most one account between them; when the first one resolves
    to an account, the second one (whatever else its profile says, and
    whenever it runs) resolves to the very same account and writes
    nothing; and an account that is found is the stored document, handed
    back with the collection untouched. *)
Theorem oauth_same_provider_id_resolves_once
    (p : Provider) (env1 env2 : Env) (prof1 prof2 : Profile) (w : World) :
  profile_id prof2 = profile_id prof1 ->
  let r1 := verifyOf p env1 prof1 w in
  let r2 := verifyOf p env2 prof2 (snd r1) in
  length (users (snd r2)) <= S (length (users w)) /\
  (forall u1, fst r1 = inr u1 ->
     fst r2 = inr u1 /\ users (snd r2) = users (snd r1) /\
     In u1 (users (snd r1))) /\
  (forall u, by_link p (profile_id prof1) w = Some u ->
     fst r1 = inr u /\ users (snd r1) = users w).
Proof.
  intros Hid. cbv zeta.
  destruct (verifyOf p env1 prof1 w) as [o w1] eqn:E1. cbn [fst snd].
  assert (Hsecond : forall u1, o = inr u1 ->
            fst (verifyOf p env2 prof2 w1) = inr u1 /\
            users (snd (verifyOf p env2 prof2 w1)) = users w1 /\
            In u1 (users w1)).
  { intros u1 ->.
    destruct (verify_result p env1 prof1 w w1 u1 E1) as [Hlink _].
    rewrite <- Hid in Hlink.
    rewrite (verify_found p env2 prof2 w1 u1 Hlink). cbn [fst snd].
    repeat split. apply (by_link_In p _ _ _ Hlink). }
  split; [|split; [exact Hsecond|]].
  - destruct o as [e|u1].
    + (* the first callback failed: it wrote nothing *)
      destruct (by_link p (profile_id prof1) w) as [v|] eqn:Hfind.
      { rewrite (verify_found p env1 prof1 w v Hfind) in E1. discriminate. }
      destruct (verify_unknown p env1 prof1 w Hfind)
        as [[_ [Hu _]] | [_ [_ [Hus _]]]]; rewrite E1 in *; simpl in *;
        [discriminate|].
      destruct (by_link p (profile_id prof2) w1) as [v|] eqn:Hfind2.
      * rewrite (verify_found p env2 prof2 _ v Hfind2). simpl. rewrite Hus. lia.
      * destruct (verify_unknown p env2 prof2 _ Hfind2)
          as [[_ [_ [Hus2 _]]] | [_ [_ [Hus2 _]]]]; rewrite Hus2, Hus.
        -- rewrite length_app. simpl. lia.
        -- lia.
    + destruct (Hsecond u1 eq_refl) as [_ [Hsame _]]. rewrite Hsame.
      destruct (verify_result p env1 prof1 w w1 u1 E1)
        as [_ [[_ Hus] | [_ [_ [_ [Hus _]]]]]]; rewrite Hus.
      * lia.
      * rewrite length_app. simpl. lia.
  - intros u Hfind.
    rewrite (verify_found p env1 prof1 w u Hfind) in E1.
    injection E1 as <- <-. split; reflexivity.
Qed.

Lemma oauth_same_provider_id_resolves_once_witness :
  profile_id prof_g_drifted = profile_id prof_g /\
  fst (verifyOf Google env0 prof_g emptyWorld) = inr g_account /\
  fst (verifyOf Google env0 prof_g_drifted
         (snd (verifyOf Google env0 prof_g emptyWorld))) = inr g_account /\
  users (snd (verifyOf Google env0 prof_g_drifted
                (snd (verifyOf Google env0 prof_g emptyWorld)))) = [g_account].
Proof.
  destruct (oauth_same_provider_id_resolves_once Google env0 env0 prof_g
              prof_g_drifted emptyWorld eq_refl) as [_ [Hsecond _]].
  destruct (Hsecond g_account eq_refl) as [Hsame [Husers _]].
  split; [reflexivity|]. split; [reflexivity|].
  split; [exact Hsame | exact Husers].
Defined.

(** ** The OAuth callback on an admin-flagged route *)

Lemma promote_In (u : User) (us : list User) :
  In u us -> In (set_role admin u) (promote (_id u) us).
Proof.
  intros H. unfold promote.
  apply in_map_iff. exists u. rewrite Nat.eqb_refl. auto.
Qed.

Lemma promote_role (o : ObjectId) (us : list User) (v : User) :
  In v (promote o us) -> _id v = o -> role v = admin.
Proof.
  unfold promote. intros H Hid. apply in_map_iff in H.
  destruct H as [x [Hx _]].
  destruct (Nat.eqb (_id x) o) eqn:E; subst v.
  - reflexivity.
  - apply Nat.eqb_neq in E. simpl in Hid. contradiction.
Qed.

(** The callback controllers on a resolved account. *)
Lemma admin_callback_run (p : Provider) (env : Env) (prof : Profile)
    (w w1 : World) (u : User) :
  verifyOf p env prof w = (inr u, w1) ->
  issued (fst (admin_route p env (Granted prof) w)) =
    Some (sign env (claims_of (set_role admin u)) (JWT_SECRET env)
               (JWT_EXPIRES_IN env)) /\
  users (snd (admin_route p env (Granted prof) w)) = promote (_id u) (users w1).
Proof.
  intros Hrun.
  destruct p; simpl in *;
    unfold admin_google_callback_route, admin_facebook_callback_route,
           authenticate_then;
    rewrite Hrun; split; reflexivity.
Qed.

(** C7. When a callback arrives on an admin-flagged route and the
    provider's profile resolves to an account (new or already there,
    whatever its role and whether or not its email was ever verified), a
    token is issued whose claims are those of that account with role
    admin, and the collection holds the account with role admin: the
    accounts are those the resolver left, with the role of this one set
    to admin. *)
Theorem admin_oauth_callback_forces_admin
    (p : Provider) (env : Env) (prof : Profile) (w w1 : World) (u : User) :
  verifyOf p env prof w = (inr u, w1) ->
  let out := admin_route p env (Granted prof) w in
  let promoted := set_role admin u in
  issued (fst out) =
    Some (sign env (claims_of promoted) (JWT_SECRET env) (JWT_EXPIRES_IN env)) /\
  claim_role (claims_of promoted) = JString "admin" /\
  users (snd out) = promote (_id u) (users w1) /\
  In promoted (users (snd out)) /\
  (forall v, In v (users (snd out)) -> _id v = _id u -> role v = admin).
Proof.
  intros Hrun out promoted.
  destruct (admin_callback_run p env prof w w1 u Hrun) as [Htok Hus].
  destruct (verify_result p env prof w w1 u Hrun) as [Hlink _].
  apply by_link_In in Hlink. destruct Hlink as [Hin _].
  subst out promoted. rewrite Hus.
  repeat split; try assumption; try reflexivity.
  - apply promote_In. exact Hin.
  - intros v Hv Hid. exact (promote_role _ _ v Hv Hid).
Qed.

Lemma admin_oauth_callback_forces_admin_witness :
  users w_g = [g_account] /\
  role g_account = user /\
  isEmailVerified g_account = false /\
  verifyOf Google env0 prof_g_drifted w_g =
    (inr g_account, logged (OpFindOne "google.id" "g-1") w_g) /\
  issued (fst (admin_route Google env0 (Granted prof_g_drifted) w_g)) =
    Some (sign env0 (claims_of (set_role admin g_account)) "secret" 3600%Z) /\
  users (snd (admin_route Google env0 (Granted prof_g_drifted) w_g)) =
    [set_role admin g_account].
Proof.
  destruct (admin_oauth_callback_forces_admin Google env0 prof_g_drifted w_g
              (logged (OpFindOne "google.id" "g-1") w_g) g_account eq_refl)
    as [Htok [_ [Hus _]]].
  split; [reflexivity|]. split; [reflexivity|]. split; [reflexivity|].
  split; [reflexivity|]. split; [exact Htok | exact Hus].
Defined.

(** ** The token of a local login *)

(** What [login] returns when it returns a token. *)
Lemma login_issued
    (env : Env) (isAdminLogin : bool) (body : LoginBody) (w : World) (t : Token) :
  issued (fst (login env isAdminLogin body w)) = Some t ->
  exists u,
    by_email (login_email body) w = Some u /\
    isEmailVerified u = true /\
    t = generateToken env (AnObjectId (_id u)) /\
    users (snd (login env isAdminLogin body w)) = users w /\
    nextId (snd (login env isAdminLogin body w)) = nextId w.
Proof.
  unfold login, tryCatch, bind. rewrite findOne_email_run.
  destruct (by_email (login_email body) w) as [u|]; [|discriminate].
  unfold comparePassword.
  destruct (password u) as [d|]; [|discriminate]. run.
  destruct (bcrypt_compare (login_password body) d); [|discriminate]. simpl.
  destruct (isAdminLogin && negb (Role_eqb (role u) admin)); [discriminate|].
  destruct (negb isAdminLogin && Role_eqb (role u) admin); [discriminate|].
  destruct (isEmailVerified u) eqn:Hv; simpl; [|discriminate].
  intros H. injection H as <-. exists u.
  split; [reflexivity|]. split; [exact Hv|]. repeat split; reflexivity.
Qed.

(** The token of a login never carries the claims of an account: its
    [id] claim is the raw [_id], and [email] and [role] are undefined. *)
Lemma login_token_claims
    (env : Env) (isAdminLogin : bool) (body : LoginBody) (w : World) (t : Token) :
  issued (fst (login env isAdminLogin body w)) = Some t ->
  claim_email (payload t) = JUndefined /\
  claim_role (payload t) = JUndefined /\
  forall u, payload t <> claims_of u.
Proof.
  intros H. destruct (login_issued env isAdminLogin body w t H)
    as [u [_ [_ [-> _]]]].
  simpl. repeat split. intros v. discriminate.
Qed.

(** C2. Alice, registered and verified, logs in with her credentials:
    login succeeds with status 200 and a token, but the claims of the
    token are [{id: raw bytes of the _id, email: undefined, role:
    undefined}], not the subject id, email and role of her account, which
    are what the token of the OAuth callback carries for its account. *)
Theorem login_token_lacks_account_claims :
  by_email "a@x.com" w_verified = Some alice_verified /\
  status_of (fst (login env0 false (mkLoginBody "a@x.com" "p1") w_verified)) =
    Some 200 /\
  issued (fst (login env0 false (mkLoginBody "a@x.com" "p1") w_verified)) =
    Some (mkToken (mkPayload (JRawId 0) JUndefined JUndefined)
                  "secret" 100%Z 3700%Z) /\
  claims_of alice_verified =
    mkPayload (JHexId 0) (JString "a@x.com") (JString "user") /\
  mkPayload (JRawId 0) JUndefined JUndefined <> claims_of alice_verified /\
  payload (generateToken env0 (Document alice_verified)) =
    claims_of alice_verified.
Proof.
  repeat split; try reflexivity. discriminate.
Qed.

(** ** The invariant of the collection *)

Lemma wf_ext (w w' : World) :
  users w' = users w -> nextId w' = nextId w -> wf w -> wf w'.
Proof.
  intros Hu Hn [Hl Hf Hd]. split; rewrite ?Hu, ?Hn; assumption.
Qed.

Lemma replace_by_id_ids (u : User) (us : list User) :
  map _id (replace_by_id u us) = map _id us.
Proof.
  induction us as [|v rest IH]; simpl; [reflexivity|].
  destruct (Nat.eqb (_id v) (_id u)) eqn:E; simpl.
  - apply Nat.eqb_eq in E. rewrite E. reflexivity.
  - rewrite IH. reflexivity.
Qed.

Lemma replace_by_id_In (u v : User) (us : list User) :
  In v (replace_by_id u us) -> v = u \/ In v us.
Proof.
  induction us as [|x rest IH]; simpl; [tauto|].
  destruct (Nat.eqb (_id x) (_id u)); simpl; intros [H|H]; auto.
  destruct (IH H); auto.
Qed.

Lemma In_ids_lt (us : list User) (n : nat) :
  (forall u, In u us -> _id u < n) <-> (forall i, In i (map _id us) -> i < n).
Proof.
  split.
  - intros H i Hi. apply in_map_iff in Hi. destruct Hi as [u [<- Hu]]. auto.
  - intros H u Hu. apply H. apply in_map. exact Hu.
Qed.

(** Writing back a document that kept the identifier, the method and the
    provider links of a stored one preserves the invariant. *)
Lemma wf_written (w : World) (u u0 : User) :
  wf w -> In u0 (users w) ->
  _id u = _id u0 -> method u = method u0 ->
  google_link u = google_link u0 -> facebook_link u = facebook_link u0 ->
  wf (written u w).
Proof.
  intros [Hl Hf Hd] Hin Hid Hm Hg Hfb. split; unfold written; simpl.
  - intros v Hv. apply replace_by_id_In in Hv. destruct Hv as [->|Hv]; [|auto].
    specialize (Hl u0 Hin). unfold links_match in *.
    rewrite Hm, Hg, Hfb. exact Hl.
  - apply In_ids_lt. rewrite replace_by_id_ids. apply In_ids_lt. exact Hf.
  - rewrite replace_by_id_ids. exact Hd.
Qed.

Lemma wf_appended (w : World) (u : User) (l : list DbOp) :
  wf w -> links_match u -> _id u = nextId w ->
  wf (mkWorld (users w ++ [u]) (S (nextId w)) l).
Proof.
  intros [Hl Hf Hd] Hlm Hid. split; simpl.
  - intros v Hv. apply in_app_or in Hv. destruct Hv as [Hv|[<-|[]]]; auto.
  - intros v Hv. apply in_app_or in Hv. destruct Hv as [Hv|[<-|[]]].
    + specialize (Hf v Hv). lia.
    + lia.
  - rewrite map_app. simpl.
    apply NoDup_app; [exact Hd | constructor; [simpl; tauto | constructor] |].
    intros i Hi [Hj|[]]. subst i.
    apply in_map_iff in Hi. destruct Hi as [v [Hv Hin]].
    specialize (Hf v Hin). lia.
Qed.

Lemma wf_bumped (w : World) (l : list DbOp) :
  wf w -> wf (mkWorld (users w) (S (nextId w)) l).
Proof.
  intros [Hl Hf Hd]. split; simpl; auto.
  intros u Hu. specialize (Hf u Hu). lia.
Qed.

Lemma promote_ids (o : ObjectId) (us : list User) :
  map _id (promote o us) = map _id us.
Proof.
  unfold promote. rewrite map_map. apply map_ext.
  intros v. destruct (Nat.eqb (_id v) o); reflexivity.
Qed.

Lemma wf_promoted (w : World) (o : ObjectId) (l : list DbOp) :
  wf w -> wf (mkWorld (promote o (users w)) (nextId w) l).
Proof.
  intros [Hl Hf Hd]. split; simpl.
  - intros v Hv. unfold promote in Hv. apply in_map_iff in Hv.
    destruct Hv as [x [<- Hx]].
    destruct (Nat.eqb (_id x) o); [exact (Hl x Hx) | auto].
  - apply In_ids_lt. rewrite promote_ids. apply In_ids_lt. exact Hf.
  - rewrite promote_ids. exact Hd.
Qed.

Lemma by_email_In (e : string) (w : World) (u : User) :
  by_email e w = Some u -> In u (users w).
Proof. intros H. apply find_some in H. tauto. Qed.

Lemma lookup_In (w : World) (u : User) :
  NoDup (map _id (users w)) -> In u (users w) -> lookup (_id u) w = Some u.
Proof.
  unfold lookup. induction (users w) as [|v rest IH]; simpl; [tauto|].
  intros Hd [->|Hin].
  - rewrite Nat.eqb_refl. reflexivity.
  - inversion Hd as [|? ? Hnot Hd']; subst.
    destruct (Nat.eqb (_id v) (_id u)) eqn:E; [|auto].
    apply Nat.eqb_eq in E. exfalso. apply Hnot. rewrite E.
    apply in_map. exact Hin.
Qed.

Ltac same_world Hwf :=
  match goal with
  | |- wf _ =>
      match type of Hwf with
      | wf ?w => apply (wf_ext w); [reflexivity | reflexivity | exact Hwf]
      end
  end.

Ltac written_world Hwf Hfind :=
  match goal with
  | |- wf {| users := replace_by_id ?u (users ?w); nextId := _; dbLog := _ |} =>
      apply (wf_ext (written u w)); [reflexivity | reflexivity |];
      eapply wf_written;
      [exact Hwf | exact (by_email_In _ _ _ Hfind) | reflexivity ..]
  end.

Lemma verify_wf (p : Provider) (env : Env) (prof : Profile) (w : World) :
  wf w -> wf (snd (verifyOf p env prof w)).
Proof.
  intros Hwf.
  destruct (by_link p (profile_id prof) w) as [v|] eqn:Hfind.
  - rewrite (verify_found p env prof w v Hfind). same_world Hwf.
  - destruct (verify_unknown p env prof w Hfind)
      as [[_ [_ [Hus Hn]]] | [_ [_ [Hus Hn]]]].
    + apply (wf_ext (mkWorld (users w ++ [federated_account p prof w])
                             (S (nextId w)) [])); [exact Hus | exact Hn |].
      apply wf_appended; [exact Hwf | | reflexivity].
      destruct p; split; simpl; congruence.
    + apply (wf_ext (mkWorld (users w) (S (nextId w)) []));
        [exact Hus | exact Hn | apply wf_bumped; exact Hwf].
Qed.

Lemma register_wf (env : Env) (adm : bool) (body : RegisterBody) (w : World) :
  wf w -> wf (snd (register env adm body w)).
Proof.
  intros Hwf.
  destruct (by_email (reg_email body) w) as [v|] eqn:Hfind.
  - rewrite register_taken_run by congruence. same_world Hwf.
  - destruct (name_ok (reg_name body)) eqn:Hname;
      [destruct (email_ok (Chars.toLowerCase (reg_email body))) eqn:Hemail|].
    + destruct (register_free_run env adm body w (wf_fresh w Hwf)
                  (conj Hname Hemail) Hfind) as [Hus [Hn _]].
      apply (wf_ext (mkWorld (users w ++ [registered_account env adm body w])
                             (S (nextId w)) [])); [exact Hus | exact Hn |].
      apply wf_appended; [exact Hwf | | reflexivity].
      split; simpl; congruence.
    + unfold register, tryCatch, bind. rewrite findOne_email_run, Hfind.
      unfold create, bind, newObjectId, save_new, bind, validate.
      cbn [email name]. rewrite Hname, Hemail. simpl.
      apply wf_bumped. exact Hwf.
    + unfold register, tryCatch, bind. rewrite findOne_email_run, Hfind.
      unfold create, bind, newObjectId, save_new, bind, validate.
      cbn [email name]. rewrite Hname. simpl.
      apply wf_bumped. exact Hwf.
Qed.

Lemma login_wf (env : Env) (adm : bool) (body : LoginBody) (w : World) :
  wf w -> wf (snd (login env adm body w)).
Proof.
  intros Hwf. unfold login, tryCatch, bind. rewrite findOne_email_run.
  destruct (by_email (login_email body) w) as [u|] eqn:Hfind;
    [|same_world Hwf].
  unfold comparePassword.
  destruct (password u) as [d|]; [|same_world Hwf]. run.
  destruct (bcrypt_compare (login_password body) d); [|same_world Hwf]. simpl.
  destruct (adm && negb (Role_eqb (role u) admin)); [same_world Hwf|].
  destruct (negb adm && Role_eqb (role u) admin); [same_world Hwf|].
  destruct (isEmailVerified u); simpl; [same_world Hwf|].
  written_world Hwf Hfind.
Qed.

Lemma resendVerification_wf (env : Env) (e : string) (w : World) :
  wf w -> wf (snd (resendVerification env e w)).
Proof.
  intros Hwf. unfold resendVerification, tryCatch, bind.
  rewrite findOne_email_run.
  destruct (by_email e w) as [u|] eqn:Hfind; [|same_world Hwf].
  destruct (isEmailVerified u); [same_world Hwf|]. run.
  destruct (emailDelivers env e (randomOtp env)); simpl;
    written_world Hwf Hfind.
Qed.

Lemma verifyEmail_wf (env : Env) (body : VerifyBody) (w : World) :
  wf w -> wf (snd (verifyEmail env body w)).
Proof.
  intros Hwf.
  destruct (by_email (verify_email body) w) as [u|] eqn:Hfind.
  - destruct (verifyOTP env u (verify_otp body)) eqn:Hotp.
    + rewrite (verifyEmail_accepted env body w u Hfind Hotp). cbn [snd].
      apply (wf_ext (written (set_otp None None (set_isEmailVerified true u)) w));
        [reflexivity | reflexivity |].
      eapply wf_written;
        [exact Hwf | exact (by_email_In _ _ _ Hfind) | reflexivity ..].
    + rewrite (verifyEmail_rejected env body w u Hfind Hotp). same_world Hwf.
  - rewrite (verifyEmail_unknown env body w Hfind). same_world Hwf.
Qed.

Lemma updateUserRole_wf (role : option string) (userId : IdString) (w : World) :
  wf w -> wf (snd (updateUserRole role userId w)).
Proof.
  intros Hwf. unfold updateUserRole, tryCatch.
  destruct (negb (truthy role) || negb (includes ["user"; "admin"] role));
    [exact Hwf|].
  unfold bind, findById. run.
  destruct userId as [o|raw]; simpl; [|same_world Hwf].
  destruct (find (fun u => Nat.eqb (_id u) o) (users w)) as [u|] eqn:Hfind;
    [|same_world Hwf].
  unfold assign_role.
  destruct role as [s|]; [|same_world Hwf].
  destruct (role_of_string s) as [r|]; simpl; [|same_world Hwf].
  apply (wf_ext (written (set_role r u) w)); [reflexivity | reflexivity |].
  apply find_some in Hfind. destruct Hfind as [Hin _].
  eapply wf_written; [exact Hwf | exact Hin | reflexivity ..].
Qed.

Lemma callback_wf (p : Provider) (env : Env) (adm : bool) (u : User) (w : World) :
  wf w ->
  wf (snd (match p with
           | Google => googleCallback env adm u w
           | Facebook => facebookCallback env adm u w
           end)).
Proof.
  intros Hwf.
  destruct p, adm; unfold googleCallback, facebookCallback, findByIdAndUpdate_role;
    run; try exact Hwf; apply wf_promoted; exact Hwf.
Qed.

(** Every request keeps the invariant; the empty collection has it. *)
Lemma handle_wf (env : Env) (r : Request) (w : World) :
  wf w -> wf (snd (handle env r w)).
Proof.
  intros Hwf. destruct r as [adm b | e | adm b | b | adm a | adm a | role uid]; simpl.
  - apply register_wf; exact Hwf.
  - apply resendVerification_wf; exact Hwf.
  - apply login_wf; exact Hwf.
  - apply verifyEmail_wf; exact Hwf.
  - unfold authenticate_then. destruct a as [prof|]; [|exact Hwf].
    pose proof (verify_wf Google env prof w Hwf) as H1. simpl in H1.
    destruct (googleVerify env prof w) as [[e|u] w1]; simpl in *; [exact H1|].
    exact (callback_wf Google env adm u w1 H1).
  - unfold authenticate_then. destruct a as [prof|]; [|exact Hwf].
    pose proof (verify_wf Facebook env prof w Hwf) as H1. simpl in H1.
    destruct (facebookVerify env prof w) as [[e|u] w1]; simpl in *; [exact H1|].
    exact (callback_wf Facebook env adm u w1 H1).
  - apply updateUserRole_wf; exact Hwf.
Qed.

(** ** Who gets a token *)

Lemma register_no_token (env : Env) (adm : bool) (body : RegisterBody) (w : World) :
  issued (fst (register env adm body w)) = None.
Proof.
  unfold register, tryCatch, bind. rewrite findOne_email_run.
  destruct (by_email (reg_email body) w); [reflexivity|].
  unfold create, bind, newObjectId, save_new, bind, validate. cbn [email name].
  destruct (name_ok (reg_name body)); [|reflexivity].
  destruct (email_ok (Chars.toLowerCase (reg_email body))); [|reflexivity].
  run. destruct (emailDelivers env (reg_email body) (randomOtp env)); reflexivity.
Qed.

Lemma resendVerification_no_token (env : Env) (e : string) (w : World) :
  issued (fst (resendVerification env e w)) = None.
Proof.
  unfold resendVerification, tryCatch, bind. rewrite findOne_email_run.
  destruct (by_email e w) as [u|]; [|reflexivity].
  destruct (isEmailVerified u); [reflexivity|]. run.
  destruct (emailDelivers env e (randomOtp env)); reflexivity.
Qed.

Lemma verifyEmail_no_token (env : Env) (body : VerifyBody) (w : World) :
  issued (fst (verifyEmail env body w)) = None.
Proof.
  destruct (by_email (verify_email body) w) as [u|] eqn:Hfind.
  - destruct (verifyOTP env u (verify_otp body)) eqn:Hotp.
    + rewrite (verifyEmail_accepted env body w u Hfind Hotp). reflexivity.
    + rewrite (verifyEmail_rejected env body w u Hfind Hotp). reflexivity.
  - rewrite (verifyEmail_unknown env body w Hfind). reflexivity.
Qed.

Lemma updateUserRole_no_token (role : option string) (userId : IdString) (w : World) :
  issued (fst (updateUserRole role userId w)) = None.
Proof.
  unfold updateUserRole, tryCatch.
  destruct (negb (truthy role) || negb (includes ["user"; "admin"] role));
    [reflexivity|].
  unfold bind, findById. run.
  destruct userId as [o|raw]; simpl; [|reflexivity].
  destruct (find (fun u => Nat.eqb (_id u) o) (users w)) as [u|]; [|reflexivity].
  unfold assign_role.
  destruct role as [s|]; [|reflexivity].
  destruct (role_of_string s) as [r|]; reflexivity.
Qed.

Lemma lookup_ext (o : ObjectId) (w w' : World) :
  users w' = users w -> lookup o w' = lookup o w.
Proof. unfold lookup. intros ->. reflexivity. Qed.

Lemma verified_eligible (u : User) : isEmailVerified u = true -> eligible u.
Proof.
  intros H. unfold eligible.
  destruct (method u); [right; auto | left; discriminate | left; discriminate].
Qed.

Lemma linked_eligible (p : Provider) (pid : string) (u : User) :
  links_match u -> link_is pid (linkOf p u) = true -> eligible u.
Proof.
  intros [Hg Hf] Hl. left.
  destruct p; simpl in Hl.
  - rewrite Hg; [discriminate|]. destruct (google_link u); [discriminate | discriminate Hl].
  - rewrite Hf; [discriminate|]. destruct (facebook_link u); [discriminate | discriminate Hl].
Qed.

(** The account a federated callback resolves to holds its token
    rightfully, on either route. *)
Lemma callback_token (p : Provider) (env : Env) (adm : bool) (prof : Profile)
    (w : World) (t : Token) :
  wf w ->
  let out := authenticate_then env (verifyOf p)
               (match p with
                | Google => googleCallback env adm
                | Facebook => facebookCallback env adm
                end) (Granted prof) w in
  issued (fst out) = Some t ->
  exists u, subject t = Some (_id u) /\ lookup (_id u) (snd out) = Some u /\
            eligible u.
Proof.
  intros Hwf out. subst out. unfold authenticate_then.
  pose proof (verify_wf p env prof w Hwf) as Hwf1.
  destruct (verifyOf p env prof w) as [[e|u] w1] eqn:Hrun; [discriminate|].
  cbn [snd] in Hwf1.
  destruct (verify_result p env prof w w1 u Hrun) as [Hlink _].
  apply by_link_In in Hlink. destruct Hlink as [Hin Hl].
  pose proof (linked_eligible p _ u (wf_links w1 Hwf1 u Hin) Hl) as Hel.
  destruct adm.
  - (* admin route: the account is promoted, in the collection too *)
    assert (Hwfp : wf (mkWorld (promote (_id u) (users w1)) (nextId w1) []))
      by (apply wf_promoted; exact Hwf1).
    assert (Hlk : lookup (_id (set_role admin u))
                    (mkWorld (promote (_id u) (users w1)) (nextId w1) []) =
                  Some (set_role admin u)).
    { apply lookup_In; [exact (wf_nodup _ Hwfp) | apply promote_In; exact Hin]. }
    destruct p; unfold googleCallback, facebookCallback, findByIdAndUpdate_role;
      run; intros H; injection H as <-;
      exists (set_role admin u); (split; [reflexivity|]);
      (split; [exact Hlk | exact Hel]).
  - assert (Hlk : lookup (_id u) w1 = Some u)
      by (apply lookup_In; [exact (wf_nodup _ Hwf1) | exact Hin]).
    destruct p; unfold googleCallback, facebookCallback; run;
      intros H; injection H as <-;
      exists u; (split; [reflexivity|]); (split; [exact Hlk | exact Hel]).
Qed.

Lemma login_unverified_pending
    (env : Env) (adm : bool) (body : LoginBody) (w : World) (u : User) :
  by_email (login_email body) w = Some u ->
  credentials_ok u (login_password body) ->
  ~ surface_mismatch adm u ->
  isEmailVerified u = false ->
  fst (login env adm body w) = Status 401 (pending_body env body).
Proof.
  intros Hfind Hcred Hsurf Hv.
  unfold login, tryCatch, bind.
  rewrite findOne_email_run, Hfind, (comparePassword_ok _ _ _ Hcred).
  cbn [negb].
  destruct (adm && negb (Role_eqb (role u) admin)) eqn:E1.
  { exfalso. apply Hsurf. left. apply andb_true_iff in E1. destruct E1 as [-> E].
    split; [reflexivity|]. apply Role_eqb_neq. destruct (Role_eqb (role u) admin);
      [discriminate | reflexivity]. }
  destruct (negb adm && Role_eqb (role u) admin) eqn:E2.
  { exfalso. apply Hsurf. right. apply andb_true_iff in E2. destruct E2 as [Ea E].
    split; [destruct adm; [discriminate | reflexivity] | apply Role_eqb_eq; exact E]. }
  rewrite Hv. reflexivity.
Qed.

(** C1. From a collection that satisfies the invariant (as every
    collection reached from the empty one does), whenever a request of
    any flow is answered with a token, the token names an account of the
    resulting collection that is federated, or local with
    [isEmailVerified = true].  A local login on an account with
    [isEmailVerified = false] returns no token; with correct credentials
    on the matching surface it returns the pending-verification answer
    (401, [requiresVerification: true]). *)
Theorem token_only_for_eligible_account
    (env : Env) (req : Request) (w : World) :
  wf w ->
  (forall t, issued (fst (handle env req w)) = Some t ->
     exists u, subject t = Some (_id u) /\
               lookup (_id u) (snd (handle env req w)) = Some u /\
               eligible u) /\
  (forall adm body u,
     req = Login adm body ->
     by_email (login_email body) w = Some u ->
     isEmailVerified u = false ->
     issued (fst (handle env req w)) = None /\
     (credentials_ok u (login_password body) ->
      ~ surface_mismatch adm u ->
      fst (handle env req w) = Status 401 (pending_body env body))).
Proof.
  intros Hwf. split.
  - intros t Ht.
    destruct req as [adm b | e | adm b | b | adm a | adm a | role uid];
      simpl in Ht |- *.
    + rewrite register_no_token in Ht. discriminate.
    + rewrite resendVerification_no_token in Ht. discriminate.
    + destruct (login_issued env adm b w t Ht) as [u [Hfind [Hv [-> [Hus _]]]]].
      exists u. split; [reflexivity|]. split; [|exact (verified_eligible u Hv)].
      rewrite (lookup_ext _ w _ Hus).
      apply lookup_In; [exact (wf_nodup w Hwf) | exact (by_email_In _ _ _ Hfind)].
    + rewrite verifyEmail_no_token in Ht. discriminate.
    + destruct a as [prof|]; [|discriminate].
      exact (callback_token Google env adm prof w t Hwf Ht).
    + destruct a as [prof|]; [|discriminate].
      exact (callback_token Facebook env adm prof w t Hwf Ht).
    + rewrite updateUserRole_no_token in Ht. discriminate.
  - intros adm body u -> Hfind Hv. simpl. split.
    + destruct (issued (fst (login env adm body w))) as [t|] eqn:Ht; [|reflexivity].
      destruct (login_issued env adm body w t Ht) as [u' [Hfind' [Hv' _]]].
      congruence.
    + intros Hcred Hsurf.
      exact (login_unverified_pending env adm body w u Hfind Hcred Hsurf Hv).
Qed.

Lemma token_only_for_eligible_account_witness :
  wf w_verified /\
  (exists t, issued (fst (handle env0 (Login false (mkLoginBody "a@x.com" "p1"))
                            w_verified)) = Some t) /\
  exists u, lookup 0 w_verified = Some u /\ eligible u.
Proof.
  assert (Hwf : wf w_verified).
  { apply (handle_wf env0 (VerifyEmail (mkVerifyBody "a@x.com" "123456"))).
    apply (handle_wf env0 (Register false alice)). exact wf_empty. }
  destruct (token_only_for_eligible_account env0
              (Login false (mkLoginBody "a@x.com" "p1")) w_verified Hwf)
    as [Htok _].
  split; [exact Hwf|].
  split; [eexists; reflexivity|].
  destruct (Htok _ eq_refl) as [u [Hs [Hl He]]].
  exists u. injection Hs as Hs. rewrite <- Hs in Hl.
  split; [exact Hl | exact He].
Defined.

(* ================================================================== *)
(** * Further properties of the code *)

(** ** The email pattern of the schema *)

Lemma void_nullable (r : Regex.re) : void r = true -> Regex.nullable r = false.
Proof.
  induction r; simpl; try discriminate; auto.
  - intros H. apply orb_true_iff in H. destruct H as [H|H];
      [rewrite (IHr1 H) | rewrite (IHr2 H), andb_false_r]; reflexivity.
  - intros H. apply andb_true_iff in H. destruct H as [H1 H2].
    rewrite (IHr1 H1), (IHr2 H2). reflexivity.
Qed.

Lemma void_deriv (c : ascii) (r : Regex.re) :
  void r = true -> void (Regex.deriv c r) = true.
Proof.
  induction r; simpl; try discriminate; auto.
  - intros H. apply orb_true_iff in H.
    destruct (Regex.nullable r1) eqn:N; simpl.
    + destruct H as [H|H].
      * rewrite (void_nullable r1 H) in N. discriminate.
      * rewrite H, (IHr2 H), orb_true_r. reflexivity.
    + destruct H as [H|H]; [rewrite (IHr1 H) | rewrite H, orb_true_r]; reflexivity.
  - intros H. apply andb_true_iff in H. destruct H as [H1 H2].
    rewrite (IHr1 H1), (IHr2 H2). reflexivity.
Qed.

Lemma void_test (s : string) : forall r, void r = true -> Regex.test r s = false.
Proof.
  induction s as [|c rest IH]; intros r H; simpl.
  - exact (void_nullable r H).
  - apply IH. exact (void_deriv c r H).
Qed.

Lemma within_deriv (P : ascii -> bool) (c : ascii) (r : Regex.re) :
  within P r -> within P (Regex.deriv c r).
Proof.
  induction r; simpl; auto.
  - intros _. destruct (p c); exact I.
  - intros [H1 H2]. destruct (Regex.nullable r1); simpl; auto.
  - intros [H1 H2]. auto.
Qed.

Lemma outside_deriv (P : ascii -> bool) (c : ascii) (r : Regex.re) :
  within P r -> P c = false -> void (Regex.deriv c r) = true.
Proof.
  intros Hw Hc. induction r; simpl in *; auto.
  - destruct (p c) eqn:E; [|reflexivity].
    rewrite (Hw c E) in Hc. discriminate.
  - destruct Hw as [H1 H2]. destruct (Regex.nullable r1); simpl.
    + rewrite (IHr1 H1), (IHr2 H2). reflexivity.
    + rewrite (IHr1 H1). reflexivity.
  - destruct Hw as [H1 H2]. rewrite (IHr1 H1), (IHr2 H2). reflexivity.
  - rewrite (IHr Hw). reflexivity.
Qed.

(** A string accepted by a pattern is made of characters its classes
    accept. *)
Lemma test_within (P : ascii -> bool) (s : string) :
  forall r, within P r -> Regex.test r s = true -> all_chars P s = true.
Proof.
  induction s as [|c rest IH]; intros r Hw Ht; simpl in *; [reflexivity|].
  destruct (P c) eqn:Hc; simpl.
  - exact (IH _ (within_deriv P c r Hw) Ht).
  - rewrite (void_test rest _ (outside_deriv P c r Hw Hc)) in Ht. discriminate.
Qed.






Lemma emailPattern_within : within address_char emailPattern.
Proof.
  assert (W : forall c, Chars.is_word c = true -> address_char c = true).
  { intros c H. unfold address_char. rewrite H. reflexivity. }
  assert (D : forall c, Ascii.eqb "." c = true -> address_char c = true).
  { intros c H. unfold address_char. rewrite H, !orb_true_r. reflexivity. }
  assert (M : forall c, Ascii.eqb "-" c = true -> address_char c = true).
  { intros c H. unfold address_char. rewrite H, !orb_true_r. reflexivity. }
  assert (A : forall c, Ascii.eqb "@" c = true -> address_char c = true).
  { intros c H. unfold address_char. rewrite H, !orb_true_r. reflexivity. }
  unfold emailPattern, Regex.plus, Regex.opt, Regex.chr. cbn [within].
  repeat split; auto.
Qed.


(** X1. An address that passes the schema's [match] validator consists
    of word characters, dots, hyphens and at-signs only: anything else
    (a plus sign, a space, a quote, a non-ASCII byte) fails validation. *)
Theorem email_ok_alphabet (e : string) :
  email_ok e = true -> all_chars address_char e = true.
Proof.
  destruct e as [|c rest]; [reflexivity|].
  unfold email_ok. apply test_within. exact emailPattern_within.
Qed.

Lemma email_ok_alphabet_witness :
  email_ok "a-b@x-y.z.com" = true /\
  all_chars address_char "a-b@x-y.z.com" = true /\
  email_ok "john+tag@gmail.com" = false.
Proof.
  split; [reflexivity|].
  split; [exact (email_ok_alphabet "a-b@x-y.z.com" eq_refl) | reflexivity].
Defined.


(** ** Role update: the paths behind the guard *)

Lemma valid_role_guard (r : Role) :
  negb (truthy (Some (role_string r))) ||
  negb (includes ["user"; "admin"] (Some (role_string r))) = false.
Proof. destruct r; reflexivity. Qed.

Lemma role_of_string_role_string (r : Role) :
  role_of_string (role_string r) = Some r.
Proof. destruct r; reflexivity. Qed.

Lemma find_replaced (o : ObjectId) (u u' : User) (us : list User) :
  find (fun v => Nat.eqb (_id v) o) us = Some u ->
  _id u' = o ->
  find (fun v => Nat.eqb (_id v) o) (replace_by_id u' us) = Some u'.
Proof.
  intros Hfind Hid. revert Hfind.
  induction us as [|v rest IH]; simpl; [discriminate|].
  rewrite Hid. destruct (Nat.eqb (_id v) o) eqn:E; simpl.
  - rewrite Hid, Nat.eqb_refl. reflexivity.
  - rewrite E. exact IH.
Qed.

Lemma replace_twice (a b : User) (us : list User) :
  _id a = _id b ->
  replace_by_id b (replace_by_id a us) = replace_by_id b us.
Proof.
  intros Hid. induction us as [|v rest IH]; simpl; [reflexivity|].
  rewrite Hid. destruct (Nat.eqb (_id v) (_id b)) eqn:E; simpl.
  - rewrite Hid, Nat.eqb_refl. reflexivity.
  - rewrite E, IH. reflexivity.
Qed.

Lemma updateUserRole_found_run (r : Role) (o : ObjectId) (w : World) (u : User) :
  lookup o w = Some u ->
  updateUserRole (Some (role_string r)) (HexId o) w =
    (Status 200 (mkJson true None None None
                   (Some (mkData (Some (set_role r u)) None None false)) None),
     logged (OpUpdate (_id u))
       (written (set_role r u) (logged (OpFindById (HexId o)) w))).
Proof.
  intros Hfind. unfold updateUserRole, tryCatch.
  rewrite valid_role_guard. unfold bind, findById. run.
  unfold lookup in Hfind. rewrite Hfind.
  unfold assign_role. rewrite role_of_string_role_string. reflexivity.
Qed.





(** X5. Role updates of one target compose as "the last one wins": the
    accounts after two updates are the accounts after the second update
    alone; in particular repeating an update changes nothing more. *)
Theorem updateUserRole_last_wins
    (r1 r2 : Role) (o : ObjectId) (w : World) (u : User) :
  lookup o w = Some u ->
  users (snd (updateUserRole (Some (role_string r2)) (HexId o)
                (snd (updateUserRole (Some (role_string r1)) (HexId o) w)))) =
  users (snd (updateUserRole (Some (role_string r2)) (HexId o) w)).
Proof.
  intros Hfind.
  assert (Hid : _id u = o).
  { unfold lookup in Hfind. apply find_some in Hfind.
    destruct Hfind as [_ H]. apply Nat.eqb_eq in H. exact H. }
  rewrite (updateUserRole_found_run r1 o w u Hfind). cbn [snd].
  rewrite (updateUserRole_found_run r2 o _ (set_role r1 u)).
  - rewrite (updateUserRole_found_run r2 o w u Hfind). simpl.
    apply (replace_twice (set_role r1 u) (set_role r2 u)). reflexivity.
  - unfold lookup. simpl. apply (find_replaced o u); [exact Hfind | exact Hid].
Qed.

Lemma updateUserRole_last_wins_witness :
  lookup 0 w_verified = Some alice_verified /\
  users (snd (updateUserRole (Some "user") (HexId 0)
                (snd (updateUserRole (Some "admin") (HexId 0) w_verified)))) =
  users w_verified.
Proof.
  split; [reflexivity|].
  etransitivity;
    [exact (updateUserRole_last_wins admin user 0 w_verified alice_verified eq_refl)|].
  reflexivity.
Defined.

(** ** Sessions *)

(** X6. What [serializeUser] puts into the session leads
    [deserializeUser] back to the same document, as long as the account
    is in a collection whose identifiers are distinct; the collection is
    only read. *)
Theorem deserialize_serialize (w : World) (u : User) :
  wf w ->
  In u (users w) ->
  deserializeUser (serializeUser u) w =
    (inr (Some u), logged (OpFindById (HexId (_id u))) w).
Proof.
  intros Hwf Hin. unfold deserializeUser, serializeUser, findById. run.
  pose proof (lookup_In w u (wf_nodup w Hwf) Hin) as H.
  unfold lookup in H. rewrite H. reflexivity.
Qed.

Lemma deserialize_serialize_witness :
  wf w_g /\ In g_account (users w_g) /\
  fst (deserializeUser (serializeUser g_account) w_g) = inr (Some g_account).
Proof.
  assert (Hwf : wf w_g).
  { exact (handle_wf env0 (GoogleCallback false (Granted prof_g)) emptyWorld
             wf_empty). }
  assert (Hin : In g_account (users w_g)) by (left; reflexivity).
  split; [exact Hwf|]. split; [exact Hin|].
  rewrite (deserialize_serialize w_g g_account Hwf Hin). reflexivity.
Defined.

(** ** Local login: the remaining paths *)

(** X7. An unknown email and a wrong password are answered alike, with
    401 "Invalid credentials", and neither writes: the answer of [login]
    does not tell whether the address has an account. *)
Theorem login_rejections_alike
    (env : Env) (isAdminLogin : bool) (body : LoginBody) (w : World) :
  by_email (login_email body) w = None \/
  (exists u digest,
      by_email (login_email body) w = Some u /\
      password u = Some digest /\
      bcrypt_compare (login_password body) digest = false) ->
  login env isAdminLogin body w =
    (Status 401 (failure "Invalid credentials"),
     logged (OpFindOne "email" (login_email body)) w).
Proof.
  intros H. unfold login, tryCatch, bind. rewrite findOne_email_run.
  destruct H as [-> | [u [d [-> [Hp Hc]]]]]; [reflexivity|].
  unfold comparePassword. rewrite Hp. run. rewrite Hc. reflexivity.
Qed.

Lemma login_rejections_alike_witness :
  login env0 false (mkLoginBody "nobody@x.com" "p1") w_verified =
    (Status 401 (failure "Invalid credentials"),
     logged (OpFindOne "email" "nobody@x.com") w_verified) /\
  fst (login env0 false (mkLoginBody "a@x.com" "wrong") w_verified) =
    Status 401 (failure "Invalid credentials").
Proof.
  split.
  - apply (login_rejections_alike env0 false (mkLoginBody "nobody@x.com" "p1")
             w_verified).
    left. reflexivity.
  - rewrite (login_rejections_alike env0 false (mkLoginBody "a@x.com" "wrong")
               w_verified); [reflexivity|].
    right. exists alice_verified, (Bcrypt 7 "p1"). repeat split.
Defined.

(** X8. A login with correct credentials on the matching surface of a
    verified account answers 200 with a token, the redirect of the
    account's role ([/admin/dashboard] for an admin, [/dashboard]
    otherwise) and the loaded document, and writes nothing. *)
Theorem login_verified_succeeds
    (env : Env) (isAdminLogin : bool) (body : LoginBody) (w : World) (u : User) :
  by_email (login_email body) w = Some u ->
  credentials_ok u (login_password body) ->
  ~ surface_mismatch isAdminLogin u ->
  isEmailVerified u = true ->
  exists t,
    login env isAdminLogin body w =
      (Status 200 (mkJson true None (Some t) (Some (dashboard (role u)))
                     (Some (mkData (Some u) None None false)) None),
       logged (OpFindOne "email" (login_email body)) w).
Proof.
  intros Hfind Hcred Hsurf Hv.
  exists (generateToken env (AnObjectId (_id u))).
  unfold login, tryCatch, bind.
  rewrite findOne_email_run, Hfind.
  rewrite (comparePassword_ok u _ _ Hcred). cbn [negb].
  destruct (isAdminLogin && negb (Role_eqb (role u) admin)) eqn:E1.
  { exfalso. apply Hsurf. left. apply andb_true_iff in E1. destruct E1 as [-> E].
    split; [reflexivity|]. apply Role_eqb_neq.
    destruct (Role_eqb (role u) admin); [discriminate | reflexivity]. }
  destruct (negb isAdminLogin && Role_eqb (role u) admin) eqn:E2.
  { exfalso. apply Hsurf. right. apply andb_true_iff in E2. destruct E2 as [Ea E].
    split; [destruct isAdminLogin; [discriminate | reflexivity]
           | apply Role_eqb_eq; exact E]. }
  rewrite Hv. reflexivity.
Qed.

Lemma login_verified_succeeds_witness :
  by_email "a@x.com" w_verified = Some alice_verified /\
  status_of (fst (login env0 false (mkLoginBody "a@x.com" "p1") w_verified)) =
    Some 200.
Proof.
  split; [reflexivity|].
  assert (Hc : credentials_ok alice_verified "p1")
    by (exists (Bcrypt 7 "p1"); split; reflexivity).
  assert (Hs : ~ surface_mismatch false alice_verified)
    by (intros [[H _] | [_ H]]; discriminate H).
  destruct (login_verified_succeeds env0 false (mkLoginBody "a@x.com" "p1")
              w_verified alice_verified eq_refl Hc Hs eq_refl)
    as [t Hrun].
  rewrite Hrun. reflexivity.
Defined.

(** ** Resending the verification code *)

(** X9. [resendVerification] refuses without writing: 404 "User not
    found" for an address without account, 400 "Email is already
    verified" for a verified one. *)
Theorem resendVerification_refusals (env : Env) (e : string) (w : World) :
  by_email e w = None \/
  (exists u, by_email e w = Some u /\ isEmailVerified u = true) ->
  resendVerification env e w =
    (Status (match by_email e w with None => 404 | Some _ => 400 end)
            (failure (match by_email e w with
                      | None => "User not found"
                      | Some _ => "Email is already verified"
                      end)),
     logged (OpFindOne "email" e) w).
Proof.
  intros H. unfold resendVerification, tryCatch, bind.
  rewrite findOne_email_run.
  destruct H as [-> | [u [-> Hv]]]; [reflexivity|].
  rewrite Hv. reflexivity.
Qed.

Lemma resendVerification_refusals_witness :
  resendVerification env0 "a@x.com" w_verified =
    (Status 400 (failure "Email is already verified"),
     logged (OpFindOne "email" "a@x.com") w_verified).
Proof.
  apply (resendVerification_refusals env0 "a@x.com" w_verified).
  right. exists alice_verified. split; reflexivity.
Defined.

(** X10. For an unverified account [resendVerification] stores the new
    challenge before it tries to deliver it: whether or not the delivery
    succeeds, the account is written back with the challenge
    [generateOTP] put on it, so after a failed delivery (answer 500) the
    earlier code is superseded although no email went out. *)
Theorem resendVerification_writes_before_delivery
    (env : Env) (e : string) (w : World) (u : User) :
  by_email e w = Some u ->
  isEmailVerified u = false ->
  let out := resendVerification env e w in
  users (snd out) = replace_by_id (snd (generateOTP env u)) (users w) /\
  status_of (fst out) =
    Some (if emailDelivers env e (fst (generateOTP env u)) then 200 else 500) /\
  issued (fst out) = None.
Proof.
  intros Hfind Hv out. subst out.
  unfold resendVerification, tryCatch, bind.
  rewrite findOne_email_run, Hfind, Hv. run.
  destruct (emailDelivers env e (randomOtp env)); repeat split; reflexivity.
Qed.

Lemma resendVerification_writes_before_delivery_witness :
  by_email "a@x.com" w_registered = Some alice_pending /\
  status_of (fst (resendVerification
                    (mkEnv 500%Z "654321" 7 (fun _ _ => false) false "secret"
                           3600%Z "http://client" 600%Z)
                    "a@x.com" w_registered)) = Some 500 /\
  users (snd (resendVerification
                (mkEnv 500%Z "654321" 7 (fun _ _ => false) false "secret"
                       3600%Z "http://client" 600%Z)
                "a@x.com" w_registered)) =
    [set_otp (Some (OtpHash "654321")) (Some 1100%Z) alice_pending].
Proof.
  destruct (resendVerification_writes_before_delivery
              (mkEnv 500%Z "654321" 7 (fun _ _ => false) false "secret"
                     3600%Z "http://client" 600%Z)
              "a@x.com" w_registered alice_pending eq_refl eq_refl)
    as [Hus [Hst _]].
  split; [reflexivity|]. split; [exact Hst | exact Hus].
Defined.

(** ** Federated sign-in: the user route, rejected profiles, duplicates *)

Lemma find_map_stable {A} (f : A -> bool) (g : A -> A) (xs : list A) :
  (forall x, f (g x) = f x) ->
  find f (map g xs) = option_map g (find f xs).
Proof.
  intros H. induction xs as [|x rest IH]; simpl; [reflexivity|].
  rewrite H. destruct (f x); [reflexivity | exact IH].
Qed.

Lemma by_link_ext (p : Provider) (pid : string) (w w' : World) :
  users w' = users w -> by_link p pid w' = by_link p pid w.
Proof. unfold by_link. intros ->. reflexivity. Qed.

Lemma by_link_promote (p : Provider) (pid : string) (o : ObjectId) (w w' : World) :
  users w' = promote o (users w) ->
  by_link p pid w' =
    option_map (fun v => if Nat.eqb (_id v) o then set_role admin v else v)
               (by_link p pid w).
Proof.
  intros Hus. unfold by_link. rewrite Hus. unfold promote.
  apply find_map_stable. intros x.
  destruct (Nat.eqb (_id x) o); destruct p; reflexivity.
Qed.

Lemma user_route_run (p : Provider) (env : Env) (prof : Profile)
    (w w1 : World) (u : User) :
  verifyOf p env prof w = (inr u, w1) ->
  user_route p env (Granted prof) w =
    (Redirect (CLIENT_URL env ++ landing p u)%string
       (Some (sign env (claims_of u) (JWT_SECRET env) (JWT_EXPIRES_IN env))),
     w1).
Proof.
  intros Hrun.
  destruct p; simpl in *;
    unfold google_callback_route, facebook_callback_route, authenticate_then;
    rewrite Hrun; reflexivity.
Qed.

(** X11. On the user route a resolved account is signed in as it is:
    nothing is written after the resolver, the token carries the claims
    of the stored account, role included (an admin stays an admin), and
    the browser is sent to the dashboard of that role by the Google
    callback and to [/auth/success] by the Facebook callback. *)
Theorem user_route_signs_in_as_stored
    (p : Provider) (env : Env) (prof : Profile) (w w1 : World) (u : User) :
  verifyOf p env prof w = (inr u, w1) ->
  user_route p env (Granted prof) w =
    (Redirect (CLIENT_URL env ++ landing p u)%string
       (Some (sign env (claims_of u) (JWT_SECRET env) (JWT_EXPIRES_IN env))),
     w1) /\
  In u (users w1) /\
  (by_link p (profile_id prof) w <> None -> users w1 = users w).
Proof.
  intros Hrun. split; [exact (user_route_run p env prof w w1 u Hrun)|].
  destruct (verify_result p env prof w w1 u Hrun) as [Hlink Hcases].
  split; [exact (proj1 (by_link_In p _ _ _ Hlink))|].
  intros Hsome. destruct Hcases as [[_ Hus] | [Hnone _]];
    [exact Hus | contradiction].
Qed.

Lemma user_route_signs_in_as_stored_witness :
  verifyOf Google env0 prof_g_drifted w_g =
    (inr g_account, logged (OpFindOne "google.id" "g-1") w_g) /\
  fst (user_route Google env0 (Granted prof_g_drifted) w_g) =
    Redirect "http://client/dashboard"
      (Some (sign env0 (claims_of g_account) "secret" 3600%Z)) /\
  users (snd (user_route Google env0 (Granted prof_g_drifted) w_g)) =
    [g_account].
Proof.
  destruct (user_route_signs_in_as_stored Google env0 prof_g_drifted w_g
              (logged (OpFindOne "google.id" "g-1") w_g) g_account eq_refl)
    as [Hrun _].
  split; [reflexivity|]. rewrite Hrun. split; reflexivity.
Defined.

(** X12. A promotion through the admin route outlives the request: a
    later sign-in with the same provider id through the user route,
    whatever the rest of its profile says, finds the account with role
    admin, issues a token with role admin and leaves the accounts as the
    admin route left them. *)
Theorem admin_promotion_persists
    (p : Provider) (env1 env2 : Env) (prof1 prof2 : Profile)
    (w w1 : World) (u : User) :
  profile_id prof2 = profile_id prof1 ->
  verifyOf p env1 prof1 w = (inr u, w1) ->
  let wa := snd (admin_route p env1 (Granted prof1) w) in
  fst (user_route p env2 (Granted prof2) wa) =
    Redirect (CLIENT_URL env2 ++ landing p (set_role admin u))%string
      (Some (sign env2 (claims_of (set_role admin u)) (JWT_SECRET env2)
                  (JWT_EXPIRES_IN env2))) /\
  users (snd (user_route p env2 (Granted prof2) wa)) = users wa.
Proof.
  intros Hid Hrun wa.
  destruct (admin_callback_run p env1 prof1 w w1 u Hrun) as [_ Hus].
  fold wa in Hus.
  destruct (verify_result p env1 prof1 w w1 u Hrun) as [Hlink _].
  assert (Hfound : by_link p (profile_id prof2) wa = Some (set_role admin u)).
  { rewrite (by_link_promote p _ (_id u) w1 wa Hus), Hid, Hlink. simpl.
    rewrite Nat.eqb_refl. reflexivity. }
  rewrite (user_route_run p env2 prof2 wa _ (set_role admin u)
             (verify_found p env2 prof2 wa _ Hfound)).
  split; reflexivity.
Qed.

Lemma admin_promotion_persists_witness :
  profile_id prof_g_drifted = profile_id prof_g /\
  verifyOf Google env0 prof_g emptyWorld = (inr g_account, w_g) /\
  fst (user_route Google env0 (Granted prof_g_drifted)
         (snd (admin_route Google env0 (Granted prof_g) emptyWorld))) =
    Redirect "http://client/admin/dashboard"
      (Some (sign env0 (claims_of (set_role admin g_account)) "secret" 3600%Z)).
Proof.
  destruct (admin_promotion_persists Google env0 env0 prof_g prof_g_drifted
              emptyWorld w_g g_account eq_refl eq_refl) as [H _].
  split; [reflexivity|]. split; [reflexivity | exact H].
Defined.





(** X14. The verify callbacks never look at the email of existing
    accounts: a first sign-in with an acceptable profile adds a new
    account even when its email already belongs to an account of the
    collection, so that two accounts with different identifiers then
    share the address, and the older one stays as it was. *)
Theorem first_sign_in_never_links_by_email
    (p : Provider) (env : Env) (prof : Profile) (w : World) (u0 : User) :
  wf w ->
  by_link p (profile_id prof) w = None ->
  profile_accepted prof = true ->
  by_email (first_or_empty (emails prof)) w = Some u0 ->
  let fresh := federated_account p prof w in
  users (snd (user_route p env (Granted prof) w)) = users w ++ [fresh] /\
  In u0 (users w) /\
  email fresh = email u0 /\
  _id fresh <> _id u0.
Proof.
  intros Hwf Hnone Hacc Hmail fresh.
  destruct (verify_unknown p env prof w Hnone)
    as [[_ [Hu [Hus _]]] | [Hrej _]]; [|congruence].
  destruct (verifyOf p env prof w) as [[e|u] w1] eqn:Hrun; simpl in Hu;
    [discriminate|].
  injection Hu as ->. simpl in Hus.
  rewrite (user_route_run p env prof w w1 _ Hrun). cbn [snd].
  unfold by_email in Hmail. apply find_some in Hmail.
  destruct Hmail as [Hin Heq]. apply String.eqb_eq in Heq.
  split; [exact Hus|]. split; [exact Hin|]. split.
  - subst fresh. destruct p; simpl; symmetry; exact Heq.
  - pose proof (wf_fresh w Hwf u0 Hin) as Hlt.
    subst fresh. destruct p; simpl; lia.
Qed.

Lemma first_sign_in_never_links_by_email_witness :
  wf w_verified /\
  by_email "A@x.com" w_verified = Some alice_verified /\
  users (snd (user_route Google env0
                (Granted (mkProfile "g-9" ["A@x.com"] "Alice G" []))
                w_verified)) =
    [alice_verified;
     mkUser 1 google "Alice G" "a@x.com" user "" None false None None
            (Some (mkLink "g-9" "a@x.com")) None].
Proof.
  assert (Hwf : wf w_verified).
  { apply (handle_wf env0 (VerifyEmail (mkVerifyBody "a@x.com" "123456"))).
    apply (handle_wf env0 (Register false alice)). exact wf_empty. }
  destruct (first_sign_in_never_links_by_email Google env0
              (mkProfile "g-9" ["A@x.com"] "Alice G" []) w_verified
              alice_verified Hwf eq_refl eq_refl eq_refl) as [H _].
  split; [exact Hwf|]. split; [reflexivity | exact H].
Defined.

(** ** What any history of requests keeps *)

(** X15. Whatever requests are served, in whatever environments, starting
    from the empty collection: identifiers stay distinct and below the
    next one to be handed out, and a provider link sits only on an
    account whose method is that provider. *)
Theorem served_history_wf (h : list (Env * Request)) :
  wf (serve h emptyWorld).
Proof.
  assert (H : forall w, wf w -> wf (serve h w)).
  { induction h as [|[env r] rest IH]; intros w Hwf; simpl; [exact Hwf|].
    apply IH. apply handle_wf. exact Hwf. }
  exact (H emptyWorld wf_empty).
Qed.

Lemma evolves_same (k : bool) (u : User) : evolves k u u.
Proof. split; auto. Qed.

Lemma Forall2_evolves_same (k : bool) (us : list User) :
  Forall2 (evolves k) us us.
Proof. induction us; constructor; auto using evolves_same. Qed.

Lemma frame_same (k : bool) (us us' : list User) :
  us' = us -> frame k us us'.
Proof.
  intros ->. exists us, []. rewrite app_nil_r.
  split; [reflexivity|]. split; [apply Forall2_evolves_same | simpl; lia].
Qed.

Lemma frame_appended (k : bool) (us us' : list User) (x : User) :
  us' = us ++ [x] -> frame k us us'.
Proof.
  intros ->. exists us, [x].
  split; [reflexivity|]. split; [apply Forall2_evolves_same | simpl; lia].
Qed.

Lemma Forall2_replace (k : bool) (u : User) (us : list User) :
  (forall v, In v us -> _id v = _id u -> evolves k v u) ->
  Forall2 (evolves k) us (replace_by_id u us).
Proof.
  induction us as [|v rest IH]; intros H; simpl; [constructor|].
  destruct (Nat.eqb (_id v) (_id u)) eqn:E.
  - apply Nat.eqb_eq in E. constructor.
    + apply H; [left; reflexivity | exact E].
    + apply Forall2_evolves_same.
  - constructor; [apply evolves_same|].
    apply IH. intros x Hx. apply H. right. exact Hx.
Qed.

Lemma same_id_same_account (us : list User) (a b : User) :
  NoDup (map _id us) -> In a us -> In b us -> _id a = _id b -> a = b.
Proof.
  induction us as [|v rest IH]; simpl; [tauto|].
  intros Hd Ha Hb Hid. inversion Hd as [|? ? Hnot Hd']; subst.
  destruct Ha as [->|Ha], Hb as [->|Hb]; auto.
  - exfalso. apply Hnot. rewrite Hid. apply in_map. exact Hb.
  - exfalso. apply Hnot. rewrite <- Hid. apply in_map. exact Ha.
Qed.

Lemma frame_written (k : bool) (w : World) (u0 u : User) (us' : list User) :
  wf w -> In u0 (users w) -> evolves k u0 u ->
  us' = replace_by_id u (users w) ->
  frame k (users w) us'.
Proof.
  intros Hwf Hin Hev ->. exists (replace_by_id u (users w)), [].
  rewrite app_nil_r. split; [reflexivity|]. split; [|simpl; lia].
  apply Forall2_replace. intros v Hv Hid.
  assert (v = u0).
  { apply (same_id_same_account (users w));
      [exact (wf_nodup w Hwf) | exact Hv | exact Hin |].
    rewrite Hid. exact (ev_id k u0 u Hev). }
  subst v. exact Hev.
Qed.

Lemma Forall2_promote (o : ObjectId) (us : list User) :
  Forall2 (evolves false) us (promote o us).
Proof.
  induction us as [|v rest IH]; simpl; constructor; [|exact IH].
  destruct (Nat.eqb (_id v) o); [|apply evolves_same].
  split; simpl; auto. discriminate.
Qed.

Lemma frame_promoted (o : ObjectId) (us us1 us' : list User) :
  us1 = us \/ (exists x, us1 = us ++ [x]) ->
  us' = promote o us1 ->
  frame false us us'.
Proof.
  intros [->|[x ->]] ->.
  - exists (promote o us), []. rewrite app_nil_r.
    split; [reflexivity|]. split; [apply Forall2_promote | simpl; lia].
  - exists (promote o us), (promote o [x]).
    split; [unfold promote; apply map_app|].
    split; [apply Forall2_promote | simpl; lia].
Qed.

Lemma verify_users (p : Provider) (env : Env) (prof : Profile) (w : World) :
  users (snd (verifyOf p env prof w)) = users w \/
  (exists x, users (snd (verifyOf p env prof w)) = users w ++ [x]).
Proof.
  destruct (by_link p (profile_id prof) w) as [v|] eqn:Hfind.
  - rewrite (verify_found p env prof w v Hfind). left. reflexivity.
  - destruct (verify_unknown p env prof w Hfind)
      as [[_ [_ [Hus _]]] | [_ [_ [Hus _]]]]; [right; eauto | left; exact Hus].
Qed.

Lemma callback_frame (p : Provider) (env : Env) (adm : bool)
    (a : ProviderAnswer) (w : World) :
  frame (negb adm) (users w)
    (users (snd (authenticate_then env (verifyOf p)
                   (match p with
                    | Google => googleCallback env adm
                    | Facebook => facebookCallback env adm
                    end) a w))).
Proof.
  unfold authenticate_then. destruct a as [prof|]; [|apply frame_same; reflexivity].
  pose proof (verify_users p env prof w) as Hus.
  destruct (verifyOf p env prof w) as [[e|u] w1]; simpl in Hus.
  - destruct Hus as [Hus|[x Hus]];
      [apply frame_same | apply (frame_appended _ _ _ x)]; exact Hus.
  - destruct adm; simpl.
    + apply (frame_promoted (_id u) (users w) (users w1)); [exact Hus|].
      destruct p; reflexivity.
    + assert (E : users (snd (match p with
                              | Google => googleCallback env false
                              | Facebook => facebookCallback env false
                              end u w1)) = users w1)
        by (destruct p; reflexivity).
      rewrite E. destruct Hus as [Hus|[x Hus]];
        [apply frame_same | apply (frame_appended _ _ _ x)]; exact Hus.
Qed.

Ltac frame_unchanged := apply frame_same; reflexivity.

Ltac frame_rewritten Hwf Hin :=
  eapply frame_written;
  [exact Hwf | exact Hin | | reflexivity];
  split; simpl; auto.

Lemma register_frame (env : Env) (adm : bool) (body : RegisterBody) (w : World) :
  wf w -> frame true (users w) (users (snd (register env adm body w))).
Proof.
  intros Hwf.
  destruct (by_email (reg_email body) w) as [v|] eqn:Hfind.
  - rewrite register_taken_run by congruence. frame_unchanged.
  - destruct (name_ok (reg_name body)) eqn:Hname;
      [destruct (email_ok (Chars.toLowerCase (reg_email body))) eqn:Hemail|].
    + destruct (register_free_run env adm body w (wf_fresh w Hwf)
                  (conj Hname Hemail) Hfind) as [Hus _].
      exact (frame_appended true _ _ _ Hus).
    + unfold register, tryCatch, bind. rewrite findOne_email_run, Hfind.
      unfold create, bind, newObjectId, save_new, bind, validate.
      cbn [email name]. rewrite Hname, Hemail. frame_unchanged.
    + unfold register, tryCatch, bind. rewrite findOne_email_run, Hfind.
      unfold create, bind, newObjectId, save_new, bind, validate.
      cbn [email name]. rewrite Hname. frame_unchanged.
Qed.

Lemma login_frame (env : Env) (adm : bool) (body : LoginBody) (w : World) :
  wf w -> frame true (users w) (users (snd (login env adm body w))).
Proof.
  intros Hwf. unfold login, tryCatch, bind. rewrite findOne_email_run.
  destruct (by_email (login_email body) w) as [u|] eqn:Hfind;
    [|frame_unchanged].
  pose proof (by_email_In _ _ _ Hfind) as Hin.
  unfold comparePassword.
  destruct (password u) as [d|]; [|frame_unchanged]. run.
  destruct (bcrypt_compare (login_password body) d); [|frame_unchanged]. simpl.
  destruct (adm && negb (Role_eqb (role u) admin)); [frame_unchanged|].
  destruct (negb adm && Role_eqb (role u) admin); [frame_unchanged|].
  destruct (isEmailVerified u); simpl; [frame_unchanged|].
  frame_rewritten Hwf Hin.
Qed.

Lemma resendVerification_frame (env : Env) (e : string) (w : World) :
  wf w -> frame true (users w) (users (snd (resendVerification env e w))).
Proof.
  intros Hwf. unfold resendVerification, tryCatch, bind.
  rewrite findOne_email_run.
  destruct (by_email e w) as [u|] eqn:Hfind; [|frame_unchanged].
  pose proof (by_email_In _ _ _ Hfind) as Hin.
  destruct (isEmailVerified u); [frame_unchanged|]. run.
  destruct (emailDelivers env e (randomOtp env)); simpl;
    frame_rewritten Hwf Hin.
Qed.

Lemma verifyEmail_frame (env : Env) (body : VerifyBody) (w : World) :
  wf w -> frame true (users w) (users (snd (verifyEmail env body w))).
Proof.
  intros Hwf.
  destruct (by_email (verify_email body) w) as [u|] eqn:Hfind.
  - pose proof (by_email_In _ _ _ Hfind) as Hin.
    destruct (verifyOTP env u (verify_otp body)) eqn:Hotp.
    + rewrite (verifyEmail_accepted env body w u Hfind Hotp). cbn [snd].
      frame_rewritten Hwf Hin.
    + rewrite (verifyEmail_rejected env body w u Hfind Hotp). frame_unchanged.
  - rewrite (verifyEmail_unknown env body w Hfind). frame_unchanged.
Qed.

Lemma updateUserRole_frame (role : option string) (userId : IdString) (w : World) :
  wf w -> frame false (users w) (users (snd (updateUserRole role userId w))).
Proof.
  intros Hwf. unfold updateUserRole, tryCatch.
  destruct (negb (truthy role) || negb (includes ["user"; "admin"] role));
    [frame_unchanged|].
  unfold bind, findById. run.
  destruct userId as [o|raw]; simpl; [|frame_unchanged].
  destruct (find (fun u => Nat.eqb (_id u) o) (users w)) as [u|] eqn:Hfind;
    [|frame_unchanged].
  apply find_some in Hfind. destruct Hfind as [Hin _].
  unfold assign_role.
  destruct role as [s|]; [|frame_unchanged].
  destruct (role_of_string s) as [r|]; simpl; [|frame_unchanged].
  eapply frame_written; [exact Hwf | exact Hin | | reflexivity].
  split; simpl; auto. discriminate.
Qed.

Lemma handle_frame (env : Env) (req : Request) (w : World) :
  wf w ->
  frame (negb (sets_role req)) (users w) (users (snd (handle env req w))).
Proof.
  intros Hwf.
  destruct req as [adm b | e | adm b | b | adm a | adm a | role uid]; simpl.
  - exact (register_frame env adm b w Hwf).
  - exact (resendVerification_frame env e w Hwf).
  - exact (login_frame env adm b w Hwf).
  - exact (verifyEmail_frame env b w Hwf).
  - exact (callback_frame Google env adm a w).
  - exact (callback_frame Facebook env adm a w).
  - exact (updateUserRole_frame role uid w Hwf).
Qed.

(** X16. No request deletes, reorders or rewrites the identity of an
    account.  From a collection with the invariant, the accounts after
    any request are the accounts of before, in the same order, followed
    by at most one new account; each earlier account keeps its
    identifier, method, name, email, avatar, password digest and provider
    links, a verified email stays verified, and its role is untouched
    unless the request is a role update or a callback on an admin
    route. *)
Theorem request_frame (env : Env) (req : Request) (w : World) :
  wf w ->
  frame (negb (sets_role req)) (users w) (users (snd (handle env req w))).
Proof.
  intros Hwf. exact (handle_frame env req w Hwf).
Qed.

Lemma request_frame_witness :
  wf w_registered /\
  frame true (users w_registered)
        (users (snd (handle env0 (VerifyEmail (mkVerifyBody "a@x.com" "123456"))
                       w_registered))).
Proof.
  assert (Hwf : wf w_registered).
  { exact (handle_wf env0 (Register false alice) emptyWorld wf_empty). }
  split; [exact Hwf|].
  exact (request_frame env0 (VerifyEmail (mkVerifyBody "a@x.com" "123456"))
           w_registered Hwf).
Defined.

(** ** What responses disclose, and what tokens carry *)

Lemma disclosed_cases (env : Env) (req : Request) (w : World) :
  disclosed_otp (fst (handle env req w)) = None \/
  disclosed_otp (fst (handle env req w)) = dev_otp env (randomOtp env).
Proof.
  destruct req as [adm b | e | adm b | b | adm a | adm a | role uid]; simpl.
  - unfold register, tryCatch, bind. rewrite findOne_email_run.
    destruct (by_email (reg_email b) w); [left; reflexivity|].
    unfold create, bind, newObjectId, save_new, bind, validate. cbn [email name].
    destruct (name_ok (reg_name b)); [|left; reflexivity].
    destruct (email_ok (Chars.toLowerCase (reg_email b))); [|left; reflexivity].
    run. destruct (emailDelivers env (reg_email b) (randomOtp env));
      [right | left]; reflexivity.
  - unfold resendVerification, tryCatch, bind. rewrite findOne_email_run.
    destruct (by_email e w) as [u|]; [|left; reflexivity].
    destruct (isEmailVerified u); [left; reflexivity|]. run.
    destruct (emailDelivers env e (randomOtp env)); [right | left]; reflexivity.
  - unfold login, tryCatch, bind. rewrite findOne_email_run.
    destruct (by_email (login_email b) w) as [u|]; [|left; reflexivity].
    unfold comparePassword.
    destruct (password u) as [d|]; [|left; reflexivity]. run.
    destruct (bcrypt_compare (login_password b) d); [|left; reflexivity]. simpl.
    destruct (adm && negb (Role_eqb (role u) admin)); [left; reflexivity|].
    destruct (negb adm && Role_eqb (role u) admin); [left; reflexivity|].
    destruct (isEmailVerified u); simpl; [left | right]; reflexivity.
  - destruct (by_email (verify_email b) w) as [u|] eqn:Hfind.
    + destruct (verifyOTP env u (verify_otp b)) eqn:Hotp.
      * rewrite (verifyEmail_accepted env b w u Hfind Hotp). left. reflexivity.
      * rewrite (verifyEmail_rejected env b w u Hfind Hotp). left. reflexivity.
    + rewrite (verifyEmail_unknown env b w Hfind). left. reflexivity.
  - left. unfold authenticate_then. destruct a as [prof|]; [|reflexivity].
    destruct (googleVerify env prof w) as [[e|u] w1]; [reflexivity|].
    destruct adm; reflexivity.
  - left. unfold authenticate_then. destruct a as [prof|]; [|reflexivity].
    destruct (facebookVerify env prof w) as [[e|u] w1]; [reflexivity|].
    destruct adm; reflexivity.
  - left. unfold updateUserRole, tryCatch.
    destruct (negb (truthy role) || negb (includes ["user"; "admin"] role));
      [reflexivity|].
    unfold bind, findById. run.
    destruct uid as [o|raw]; simpl; [|reflexivity].
    destruct (find (fun u => Nat.eqb (_id u) o) (users w)) as [u|]; [|reflexivity].
    unfold assign_role.
    destruct role as [s|]; [|reflexivity].
    destruct (role_of_string s) as [r|]; reflexivity.
Qed.

(** X17. A one-time code appears in a response only when the process
    runs in development mode: in any other mode no request of any flow
    is answered with the code in its body. *)
Theorem otp_disclosed_only_in_development
    (env : Env) (req : Request) (w : World) :
  disclosed_otp (fst (handle env req w)) <> None ->
  development env = true.
Proof.
  intros H. destruct (disclosed_cases env req w) as [E|E];
    [contradiction|].
  rewrite E in H. unfold dev_otp in H.
  destruct (development env); [reflexivity | contradiction].
Qed.

Lemma otp_disclosed_only_in_development_witness :
  disclosed_otp
    (fst (handle (mkEnv 100%Z "123456" 7 (fun _ _ => true) true "secret"
                        3600%Z "http://client" 600%Z)
                 (Register false alice) emptyWorld)) = Some "123456" /\
  development (mkEnv 100%Z "123456" 7 (fun _ _ => true) true "secret"
                     3600%Z "http://client" 600%Z) = true /\
  disclosed_otp (fst (handle env0 (Register false alice) emptyWorld)) = None.
Proof.
  split; [reflexivity|]. split; [|reflexivity].
  apply (otp_disclosed_only_in_development _ (Register false alice) emptyWorld).
  discriminate.
Defined.




(** X19. The token of a federated sign-in round-trips on either route:
    its [id] claim is the identifier of an account of the resulting
    collection, and its claims are exactly that stored account's id,
    email and role. *)
Theorem federated_token_names_its_account
    (p : Provider) (env : Env) (adm : bool) (prof : Profile) (w : World)
    (t : Token) :
  wf w ->
  let out := (if adm then admin_route p env else user_route p env)
               (Granted prof) w in
  issued (fst out) = Some t ->
  exists u,
    subject t = Some (_id u) /\
    lookup (_id u) (snd out) = Some u /\
    payload t = claims_of u.
Proof.
  intros Hwf out Ht. subst out.
  pose proof (verify_wf p env prof w Hwf) as Hwf1.
  destruct (verifyOf p env prof w) as [[e|u] w1] eqn:Hrun.
  - exfalso. destruct adm, p; simpl in Ht;
      unfold admin_google_callback_route, admin_facebook_callback_route,
             google_callback_route, facebook_callback_route,
             authenticate_then in Ht;
      simpl in Hrun; rewrite Hrun in Ht; discriminate.
  - cbn [snd] in Hwf1.
    destruct (verify_result p env prof w w1 u Hrun) as [Hlink _].
    apply by_link_In in Hlink. destruct Hlink as [Hin _].
    destruct adm.
    + destruct (admin_callback_run p env prof w w1 u Hrun) as [Htok Hus].
      rewrite Htok in Ht. injection Ht as <-.
      exists (set_role admin u). split; [reflexivity|]. split; [|reflexivity].
      rewrite (lookup_ext _ (mkWorld (promote (_id u) (users w1)) (nextId w1) [])
                 _ Hus).
      apply lookup_In.
      * exact (wf_nodup _ (wf_promoted w1 (_id u) [] Hwf1)).
      * apply promote_In. exact Hin.
    + rewrite (user_route_run p env prof w w1 u Hrun) in Ht |- *.
      simpl in Ht. injection Ht as <-.
      exists u. split; [reflexivity|]. split; [|reflexivity].
      apply lookup_In; [exact (wf_nodup _ Hwf1) | exact Hin].
Qed.

Lemma federated_token_names_its_account_witness :
  wf w_g /\
  exists t u,
    issued (fst (admin_route Google env0 (Granted prof_g_drifted) w_g)) = Some t /\
    lookup 0 (snd (admin_route Google env0 (Granted prof_g_drifted) w_g)) = Some u /\
    payload t = claims_of u.
Proof.
  assert (Hwf : wf w_g).
  { exact (handle_wf env0 (GoogleCallback false (Granted prof_g)) emptyWorld
             wf_empty). }
  split; [exact Hwf|].
  destruct (federated_token_names_its_account Google env0 true prof_g_drifted
              w_g _ Hwf eq_refl) as [u [Hs [Hl Hp]]].
  eexists. exists u. split; [reflexivity|].
  injection Hs as Hs. rewrite <- Hs in Hl. split; [exact Hl | exact Hp].
Defined.

(** ** Histories *)

Lemma evolves_weaken (k : bool) (u u' : User) :
  evolves k u u' -> evolves false u u'.
Proof. intros [? ? ? ? ? ? ? ? ? ?]. split; auto. discriminate. Qed.

Lemma evolves_trans (u1 u2 u3 : User) :
  evolves false u1 u2 -> evolves false u2 u3 -> evolves false u1 u3.
Proof.
  intros [a1 a2 a3 a4 a5 a6 a7 a8 a9 _] [b1 b2 b3 b4 b5 b6 b7 b8 b9 _].
  split; try congruence; auto.
Qed.

Lemma Forall2_In_left {A B} (R : A -> B -> Prop) (xs : list A) (ys : list B) (x : A) :
  Forall2 R xs ys -> In x xs -> exists y, In y ys /\ R x y.
Proof.
  induction 1 as [|a b xs' ys' Hab _ IH]; simpl; [tauto|].
  intros [->|Hin]; [eauto|].
  destruct (IH Hin) as [y [Hy Hr]]. eauto.
Qed.

Lemma frame_In (k : bool) (us us' : list User) (u : User) :
  frame k us us' -> In u us -> exists u', In u' us' /\ evolves k u u'.
Proof.
  intros [kept [added [-> [Hall _]]]] Hin.
  destruct (Forall2_In_left _ _ _ u Hall Hin) as [u' [Hin' Hev]].
  exists u'. split; [apply in_or_app; left; exact Hin' | exact Hev].
Qed.

(** X20. Accounts are for ever: over any history of requests served from
    a collection with the invariant, every account of the start is still
    there at the end, with its identifier, method, name, email, avatar,
    password digest and provider links unchanged, and still verified if
    it was. *)
Theorem accounts_persist (h : list (Env * Request)) :
  forall (w : World) (u : User),
    wf w ->
    In u (users w) ->
    exists u', In u' (users (serve h w)) /\ evolves false u u'.
Proof.
  induction h as [|[env r] rest IH]; intros w u Hwf Hin; simpl.
  - exists u. split; [exact Hin | apply evolves_same].
  - destruct (frame_In _ _ _ u (handle_frame env r w Hwf) Hin) as [u1 [Hin1 Hev1]].
    destruct (IH (snd (handle env r w)) u1 (handle_wf env r w Hwf) Hin1)
      as [u2 [Hin2 Hev2]].
    exists u2. split; [exact Hin2|].
    exact (evolves_trans u u1 u2 (evolves_weaken _ _ _ Hev1) Hev2).
Qed.

Lemma accounts_persist_witness :
  wf w_verified /\
  In alice_verified (users w_verified) /\
  exists u',
    In u' (users (serve [(env0, UpdateUserRole (Some "admin") (HexId 0));
                         (env0, GoogleCallback true (Granted prof_g));
                         (env0, ResendVerification "a@x.com")]
                        w_verified)) /\
    evolves false alice_verified u'.
Proof.
  assert (Hwf : wf w_verified).
  { apply (handle_wf env0 (VerifyEmail (mkVerifyBody "a@x.com" "123456"))).
    apply (handle_wf env0 (Register false alice)). exact wf_empty. }
  assert (Hin : In alice_verified (users w_verified)) by (left; reflexivity).
  split; [exact Hwf|]. split; [exact Hin|].
  exact (accounts_persist _ w_verified alice_verified Hwf Hin).
Defined.

(** ** Registering twice *)

Lemma toLowerCase_idempotent (s : string) :
  Chars.toLowerCase (Chars.toLowerCase s) = Chars.toLowerCase s.
Proof.
  induction s as [|c rest IH]; simpl; [reflexivity|].
  rewrite IH. f_equal.
  destruct c as [b0 b1 b2 b3 b4 b5 b6 b7].
  destruct b0, b1, b2, b3, b4, b5, b6, b7; reflexivity.
Qed.

(** X21. After a valid registration, a second registration under the
    same address, in any letter case and with any name, password or
    intent, is refused with 400 "User already exists" and creates
    nothing, whether or not the first verification email was
    delivered. *)
Theorem register_twice_refused
    (env env' : Env) (adm adm' : bool) (body body' : RegisterBody) (w : World) :
  wf w ->
  valid_registration body ->
  email_free (reg_email body) w ->
  Chars.toLowerCase (reg_email body') = Chars.toLowerCase (reg_email body) ->
  let w1 := snd (register env adm body w) in
  fst (register env' adm' body' w1) = Status 400 (failure "User already exists") /\
  users (snd (register env' adm' body' w1)) = users w1.
Proof.
  intros Hwf Hvalid Hfree Hsame w1.
  destruct (register_free_run env adm body w (wf_fresh w Hwf) Hvalid Hfree)
    as [Hus _].
  fold w1 in Hus.
  assert (Htaken : by_email (reg_email body') w1 <> None).
  { unfold by_email. rewrite Hus, Hsame.
    rewrite (find_app_last _ _ (registered_account env adm body w)
               Hfree (String.eqb_refl _)).
    discriminate. }
  rewrite (register_taken_run env' adm' body' w1 Htaken).
  split; reflexivity.
Qed.

Lemma register_twice_refused_witness :
  wf emptyWorld /\ valid_registration alice /\
  email_free (reg_email alice) emptyWorld /\
  fst (register env0 true (mkRegisterBody "Mallory" "A@X.com" "other")
         w_registered) = Status 400 (failure "User already exists").
Proof.
  assert (Hvalid : valid_registration alice) by (split; reflexivity).
  destruct (register_twice_refused env0 env0 false true alice
              (mkRegisterBody "Mallory" "A@X.com" "other") emptyWorld
              wf_empty Hvalid eq_refl eq_refl) as [H _].
  split; [exact wf_empty|]. split; [exact Hvalid|]. split; [reflexivity|].
  exact H.
Defined.
